(** * Most Wanted OTUs: top-N selection, abundance summaries and report assembly

    A shallow embedding of [code/emp/most_wanted_otus.py].

    Conventions of the embedding.
    - Python numbers (percent identities, abundance counts, fractions) are
      exact rationals [Q]: binary64 rounding is abstracted away, and there is
      no NaN and no infinity.  Values that are only stored and compared keep
      their syntactic form, so results can be compared with [=]; values
      produced by arithmetic are compared with [Qeq].
    - A Python call either returns or raises: [result A].
    - Python builtins and the collaborating libraries (float parsing, float
      printing, [os.path], the qiime palette, the biom table) are collected in
      the class [Externals]; the code of this module is generic in them.
    - Objects with identity (the [itertools.cycle] iterators) live in a store,
      directories and emitted files in a [world]. *)

From Stdlib Require Import ZArith QArith Qabs List String Ascii Lia.
From Stdlib Require Import Sorted Permutation DecimalString.
From stdpp Require Import gmap strings.

Import ListNotations.
Local Open Scope string_scope.
Local Open Scope list_scope.

(* ================================================================== *)
(** ** Exceptions and results *)

Inductive exn : Type :=
| ValueError (msg : string)
| ZeroDivisionError
| StopIteration
| KeyError (key : string)
| IndexError
| OSError (path : string)
| IOError (path : string)
| WorkflowError (msg : string).

Inductive result (A : Type) : Type :=
| Ok (a : A)
| Raise (e : exn).

Arguments Ok {A} a.
Arguments Raise {A} e.

Definition rbind {A B} (r : result A) (k : A -> result B) : result B :=
  match r with
  | Ok a => k a
  | Raise e => Raise e
  end.

#[global] Instance result_ret : MRet result := @Ok.
#[global] Instance result_bind : MBind result := fun A B k r => rbind r k.

(** [for x in l: st = body(st, x)] where the body may raise. *)
Fixpoint fold_result {A S} (body : S -> A -> result S) (l : list A) (st : S)
  : result S :=
  match l with
  | [] => Ok st
  | x :: l' => rbind (body st x) (fold_result body l')
  end.

(** [[f(x) for x in l]] where [f] may raise. *)
Fixpoint map_result {A B} (f : A -> result B) (l : list A) : result (list B) :=
  match l with
  | [] => Ok []
  | x :: l' =>
      rbind (f x) (fun y => rbind (map_result f l') (fun ys => Ok (y :: ys)))
  end.

(* ================================================================== *)
(** ** Python strings *)

(** The characters [str.strip()] removes: space, \t, \n, \v, \f, \r. *)
Definition is_space (c : ascii) : bool :=
  let n := nat_of_ascii c in
  (n =? 32)%nat || ((9 <=? n)%nat && (n <=? 13)%nat).

Fixpoint lstrip (s : string) : string :=
  match s with
  | String c s' => if is_space c then lstrip s' else s
  | EmptyString => EmptyString
  end.

Fixpoint rstrip (s : string) : string :=
  match s with
  | String c s' =>
      match rstrip s' with
      | EmptyString => if is_space c then EmptyString else String c EmptyString
      | t => String c t
      end
  | EmptyString => EmptyString
  end.

Definition strip (s : string) : string := rstrip (lstrip s).

(** [s.split(sep)] for a one-character separator: always at least one piece. *)
Fixpoint split (sep : ascii) (s : string) : list string :=
  match s with
  | EmptyString => [EmptyString]
  | String c s' =>
      if Ascii.eqb c sep then EmptyString :: split sep s'
      else match split sep s' with
           | piece :: rest => String c piece :: rest
           | [] => [String c EmptyString]
           end
  end.

(** [sep.join(pieces)]. *)
Fixpoint join (sep : string) (pieces : list string) : string :=
  match pieces with
  | [] => EmptyString
  | [p] => p
  | p :: rest => p +:+ sep +:+ join sep rest
  end.

Definition startswith (pre s : string) : bool := String.prefix pre s.

(** Truth value of a string: non-empty. *)
Definition nonempty (s : string) : bool :=
  match s with
  | EmptyString => false
  | String _ _ => true
  end.

Definition tab : ascii := ascii_of_nat 9.
Definition nl : ascii := ascii_of_nat 10.
Definition TAB : string := String tab EmptyString.
Definition NL : string := String nl EmptyString.
(** The double quote, for the HTML attributes. *)
Definition DQ : string := String (ascii_of_nat 34) EmptyString.

(** [s.split()]: pieces between runs of whitespace, none of them empty. *)
Fixpoint split_ws_aux (cur : string) (s : string) : list string :=
  match s with
  | EmptyString => if nonempty cur then [cur] else []
  | String c s' =>
      if is_space c
      then (if nonempty cur then cur :: split_ws_aux EmptyString s'
            else split_ws_aux EmptyString s')
      else split_ws_aux (cur +:+ String c EmptyString) s'
  end.

Definition split_ws (s : string) : list string := split_ws_aux EmptyString s.

(** The lines of a text as a file object yields them, terminator kept. *)
Fixpoint readlines_aux (cur : string) (s : string) : list string :=
  match s with
  | EmptyString => if nonempty cur then [cur] else []
  | String c s' =>
      if Ascii.eqb c nl
      then (cur +:+ NL) :: readlines_aux EmptyString s'
      else readlines_aux (cur +:+ String c EmptyString) s'
  end.

Definition readlines (s : string) : list string := readlines_aux EmptyString s.

(** [[s[i:i+n] for i in range(0, len(s), n)]]. *)
Fixpoint chunks_aux (n : nat) (cur : string) (room : nat) (s : string)
  : list string :=
  match s with
  | EmptyString => if nonempty cur then [cur] else []
  | String c s' =>
      match room with
      | O => cur :: chunks_aux n (String c EmptyString) (n - 1) s'
      | S room' => chunks_aux n (cur +:+ String c EmptyString) room' s'
      end
  end.

Definition chunks (n : nat) (s : string) : list string :=
  chunks_aux n EmptyString n s.

(** Concatenation of a list of strings. *)
Definition concat_str (l : list string) : string :=
  fold_right String.append EmptyString l.

(** ['%d' % n]. *)
Definition str_of_int (n : Z) : string :=
  NilZero.string_of_int (Z.to_int n).

(** [l[:n]]: a negative [n] counts from the end. *)
Definition slice_to {A} (n : Z) (l : list A) : list A :=
  if (0 <=? n)%Z then firstn (Z.to_nat n) l
  else firstn (Z.to_nat (Z.of_nat (length l) + n)) l.

(** [l[i]] for an index [i >= 0]. *)
Definition index {A} (l : list A) (i : nat) : result A :=
  match nth_error l i with
  | Some x => Ok x
  | None => Raise IndexError
  end.

(** [zip(a, b)]: stops at the shorter sequence. *)
Fixpoint zip {A B} (a : list A) (b : list B) : list (A * B) :=
  match a, b with
  | x :: a', y :: b' => (x, y) :: zip a' b'
  | _, _ => []
  end.

(** [enumerate(l)]. *)
Fixpoint enumerate_from {A} (i : Z) (l : list A) : list (Z * A) :=
  match l with
  | [] => []
  | x :: l' => (i, x) :: enumerate_from (i + 1) l'
  end.

Definition enumerate {A} (l : list A) : list (Z * A) := enumerate_from 0 l.

(** [sorted(l, key=key, reverse=reverse)]: a stable sort.  On keys that are
    totally preordered every stable sort returns the same list, so the
    insertion sort below stands for Python's.  With [reverse=True] the order
    is descending and equal keys still keep their input order. *)
Section Sorted.
Context {A : Type} (key : A -> Q) (reverse : bool).

(** [x] may stand before [y] when [x] was before [y] in the input. *)
Definition precedes (x y : A) : bool :=
  if reverse then Qle_bool (key y) (key x) else Qle_bool (key x) (key y).

Fixpoint insert_sorted (x : A) (l : list A) : list A :=
  match l with
  | [] => [x]
  | y :: l' => if precedes x y then x :: y :: l' else y :: insert_sorted x l'
  end.

Fixpoint sorted (l : list A) : list A :=
  match l with
  | [] => []
  | x :: l' => insert_sorted x (sorted l')
  end.
End Sorted.

(** [sum(l)]: starts from 0 and adds from the left. *)
Definition sum (l : list Q) : Q := fold_left Qplus l 0%Q.

(** [a / b] under [from __future__ import division]. *)
Definition py_div (a b : Q) : result Q :=
  if Qeq_bool b 0 then Raise ZeroDivisionError else Ok (a / b)%Q.

(** Nearest integer, ties to the even one. *)
Definition round_half_even (q : Q) : Z :=
  let n := Qnum q in
  let d := Zpos (Qden q) in
  let fl := (n / d)%Z in
  let r := (n mod d)%Z in
  match (2 * r ?= d)%Z with
  | Lt => fl
  | Gt => (fl + 1)%Z
  | Eq => if Z.even fl then fl else (fl + 1)%Z
  end.

(** The last [width] decimal digits of [k], zeros included. *)
Fixpoint pad_digits (width : nat) (k : Z) : string :=
  match width with
  | O => ""
  | S w => pad_digits w (k / 10) +:+ str_of_int (k mod 10)
  end.

(** ['%.<d>f' % q]: [d] decimals, correctly rounded, the sign kept even
    when the digits round to zero. *)
Definition format_fixed (d : nat) (q : Q) : string :=
  let scale := (10 ^ Z.of_nat d)%Z in
  let k := round_half_even (Qabs q * inject_Z scale) in
  (if Qle_bool 0 q then "" else "-")
    +:+ str_of_int (k / scale)
    +:+ (if (d =? 0)%nat then "" else "." +:+ pad_digits d (k mod scale)).

(** ['%.2f' % q] and ['%f' % q]. *)
Definition format_2f (q : Q) : string := format_fixed 2 q.
Definition format_f (q : Q) : string := format_fixed 6 q.

(* ================================================================== *)
(** ** The world: iterator objects, directories, files, emitted effects *)

(** An [itertools.cycle] object: the saved items and the next position. *)
Record cycle_iter : Type := {
  cyc_items : list string;
  cyc_pos : nat
}.

(** [(fractions, labels, colors)], as [_format_pie_chart_data] returns it. *)
Definition plot_data : Type := list Q * list string * list string.

(** What the run hands to the plotting, pickling and logging libraries. *)
Inductive event : Type :=
| LogOpen (log_fp : string)
| LogWrite (log_fp msg : string)
| LogClose (log_fp : string)
| SaveFig (fp : string) (fractions : list Q) (colors : list string)
| Dump (fp : string) (data : plot_data).

Record world : Type := {
  iters : list cycle_iter;
  dirs : gset string;
  files : gmap string string;
  trace : list event
}.

(** A computation that reads and changes the world and may raise; what it
    did before raising stays done. *)
Definition M (A : Type) : Type := world -> result A * world.

Definition ret {A} (a : A) : M A := fun w => (Ok a, w).
Definition raise {A} (e : exn) : M A := fun w => (Raise e, w).
Definition lift {A} (r : result A) : M A := fun w => (r, w).

Definition bind {A B} (m : M A) (k : A -> M B) : M B :=
  fun w =>
    match m w with
    | (Ok a, w') => k a w'
    | (Raise e, w') => (Raise e, w')
    end.

#[global] Instance M_ret : MRet M := @ret.
#[global] Instance M_bind : MBind M := fun A B k m => bind m k.

(** Shows the binds behind the [x ← m; k] notation. *)
Ltac unfold_bind :=
  unfold mbind, mret, result_bind, result_ret, M_bind, M_ret in *.

(** [try: m  except OSError: handler]. *)
Definition try_except_OSError {A} (m : M A) (handler : M A) : M A :=
  fun w =>
    match m w with
    | (Raise (OSError _), w') => handler w'
    | r => r
    end.

(** [for x in l: st = body(st, x)] in the world. *)
Fixpoint fold_M {A S} (body : S -> A -> M S) (l : list A) (st : S) : M S :=
  match l with
  | [] => ret st
  | x :: l' => bind (body st x) (fold_M body l')
  end.

(** [[f(x) for x in l]] in the world. *)
Fixpoint map_M {A B} (f : A -> M B) (l : list A) : M (list B) :=
  match l with
  | [] => ret []
  | x :: l' => bind (f x) (fun y => bind (map_M f l') (fun ys => ret (y :: ys)))
  end.

Definition emit (e : event) : M unit :=
  fun w => (Ok tt, {| iters := iters w; dirs := dirs w; files := files w;
                      trace := trace w ++ [e] |}).

(** [os.makedirs(path)]: raises [OSError] when the directory is there. *)
Definition makedirs (path : string) : M unit :=
  fun w =>
    if bool_decide (path ∈ dirs w) then (Raise (OSError path), w)
    else (Ok tt, {| iters := iters w; dirs := {[path]} ∪ dirs w;
                    files := files w; trace := trace w |}).

(** [open(fp, 'U')], iterated by lines. *)
Definition open_read (fp : string) : M (list string) :=
  fun w =>
    match files w !! fp with
    | Some text => (Ok (readlines text), w)
    | None => (Raise (IOError fp), w)
    end.

(** [f = open(fp, 'w'); f.write(text); f.close()]. *)
Definition write_file (fp text : string) : M unit :=
  fun w => (Ok tt, {| iters := iters w; dirs := dirs w;
                      files := <[fp := text]> (files w); trace := trace w |}).

(** [itertools.cycle(items)]: a new iterator object; its reference is its
    place in the store. *)
Definition cycle (items : list string) : M nat :=
  fun w => (Ok (length (iters w)),
            {| iters := iters w ++ [{| cyc_items := items; cyc_pos := 0 |}];
               dirs := dirs w; files := files w; trace := trace w |}).

(** [it.next()]: the item at the position, which then moves on and wraps
    around; an iterator over no items is exhausted at once. *)
Definition next (it : nat) : M string :=
  fun w =>
    match iters w !! it with
    | Some c =>
        match nth_error (cyc_items c) (cyc_pos c) with
        | Some x =>
            (Ok x,
             {| iters := <[it := {| cyc_items := cyc_items c;
                                    cyc_pos := S (cyc_pos c)
                                               mod length (cyc_items c) |}]>
                           (iters w);
                dirs := dirs w; files := files w; trace := trace w |})
        | None => (Raise StopIteration, w)
        end
    | None => (Raise StopIteration, w)
    end.

(* ================================================================== *)
(** ** What the module takes from outside *)

(** The part of a biom table the report reads. *)
Record biom_table : Type := {
  SampleIds : list string;
  (** [table.observationData(otu_id)]. *)
  observationData : string -> result (list Q);
  (** [table.ObservationMetadata[table.getObservationIndex(otu_id)]
      ['taxonomy']], as ['%s'] prints it. *)
  observation_taxonomy : string -> result string
}.

Class Externals : Type := {
  (** [float(s)]: [None] when Python raises [ValueError]. *)
  float_of_string : string -> option Q;
  (** ['%s' % x] and [str(x)] for a float [x]. *)
  str_of_float : Q -> string;
  (** [[data_colors[color].toHex() for color in data_color_order]]. *)
  palette : list string;
  (** [os.path.join], [basename], [normpath] and [splitext(p)[0]]. *)
  path_join : string -> string -> string;
  basename : string -> string;
  normpath : string -> string;
  splitext_root : string -> string;
  (** [qiime.util.add_filename_suffix]. *)
  add_filename_suffix : string -> string -> string;
  (** [qiime.workflow.util.generate_log_fp]. *)
  generate_log_fp : string -> string;
  (** [cogent.parse.fasta.MinimalFastaParser], run to the end. *)
  MinimalFastaParser : list string -> result (list (string * string));
  (** [biom.parse.parse_biom_table]. *)
  parse_biom_table : list string -> result biom_table
}.

(* ================================================================== *)
(** ** The top-N selector *)

(** A search hit: [(otu_id, subject_id, percent_identity)]. *)
Definition hit : Type := string * string * Q.

Definition hit_otu (h : hit) : string := fst (fst h).
Definition hit_subject (h : hit) : string := snd (fst h).
Definition hit_pi (h : hit) : Q := snd h.

Section Selector.
Context `{Externals}.

(** The condition of the inner [if]. *)
Definition accepts (max_nt_similarity : Q) (seen_otus : gmap string bool)
    (otu_id : string) (percent_identity : Q) : bool :=
  Qle_bool (percent_identity / 100) max_nt_similarity
  && negb (bool_decide (is_Some (seen_otus !! otu_id))).

(** [otu_id, subject_id, percent_identity = line.split('\t')[:3]]. *)
Definition unpack3 (fields : list string) : result (string * string * string) :=
  match firstn 3 fields with
  | [a; b; c] => Ok (a, b, c)
  | [_] => Raise (ValueError "need more than 1 value to unpack")
  | [_; _] => Raise (ValueError "need more than 2 values to unpack")
  | [] => Raise (ValueError "need more than 0 values to unpack")
  | _ => Raise (ValueError "too many values to unpack")
  end.

(** [float(s)]. *)
Definition float (s : string) : result Q :=
  match float_of_string s with
  | Some x => Ok x
  | None => Raise (ValueError ("could not convert string to float: " +:+ s))
  end.

(** One iteration of the loop over the lines of the BLAST output. *)
Definition selector_step (max_nt_similarity : Q)
    (st : list hit * gmap string bool) (line : string)
  : result (list hit * gmap string bool) :=
  let '(result, seen_otus) := st in
  let line := strip line in
  if nonempty line && negb (startswith "#" line) then
    '(otu_id, subject_id, percent_identity) ← unpack3 (split tab line);
    percent_identity ← float percent_identity;
    if accepts max_nt_similarity seen_otus otu_id percent_identity
    then Ok (result ++ [(otu_id, subject_id, percent_identity)],
             <[otu_id := true]> seen_otus)
    else Ok (result, seen_otus)
  else Ok (result, seen_otus).

Definition _get_top_n_blast_results (blast_results_f : list string)
    (top_n : Z) (max_nt_similarity : Q) : result (list hit) :=
  '(result, seen_otus) ←
    fold_result (selector_step max_nt_similarity) blast_results_f ([], ∅);
  Ok (slice_to top_n (sorted hit_pi false result)).

End Selector.

(* ================================================================== *)
(** ** The abundance summarizer *)

Section Summarizer.
Context `{Externals}.

(** [(val, label, color)]. *)
Definition group : Type := Q * string * string.

Definition group_val (e : group) : Q := fst (fst e).
Definition group_label (e : group) : string := snd (fst e).
Definition group_color (e : group) : string := snd e.

(** ['%s (%.2f%%)' % (label, val * 100.0)]. *)
Definition format_label (label : string) (val : Q) : string :=
  label +:+ " (" +:+ format_2f (val * 100) +:+ "%)".

Definition _format_pie_chart_data (labels : list string) (data : list Q)
    (max_count : Z) : M plot_data :=
  if negb (length labels =? length data)%nat then
    raise (ValueError
             "The number of labels does not match the number of counts.")
  else
    colors ← cycle palette;
    result ← map_M (fun '(val, label) =>
                      color ← next colors; ret (val, label, color))
                   (zip data labels);
    let result := slice_to max_count (sorted group_val true result) in
    let total := sum (map group_val result) in
    result ← lift (map_result
                     (fun '(val, label, color) =>
                        val ← py_div val total; Ok (val, label, color))
                     result);
    ret (map group_val result,
         map (fun e => format_label (group_label e) (group_val e)) result,
         map group_color result).

(** [zip(a, b, c)]. *)
Fixpoint zip3 {A B C} (a : list A) (b : list B) (c : list C)
  : list (A * B * C) :=
  match a, b, c with
  | x :: a', y :: b', z :: c' => (x, y, z) :: zip3 a' b' c'
  | _, _, _ => []
  end.

Definition legend_item (color label : string) : string :=
  "<li><div class=" +:+ DQ +:+ "key" +:+ DQ +:+ " style=" +:+ DQ
    +:+ "background-color:" +:+ color +:+ DQ +:+ "></div>" +:+ label
    +:+ "</li>".

Definition _format_legend_html (pd : plot_data) : string :=
  let '(fractions, labels, colors) := pd in
  fold_left (fun result '(val, label, color) =>
               result +:+ legend_item color label)
            (zip3 fractions labels colors)
            ("<ul class=" +:+ DQ +:+ "most_wanted_otus_legend" +:+ DQ +:+ ">")
    +:+ "</ul>".

End Summarizer.

(* ================================================================== *)
(** ** The report assembler *)

Section Report.
Context `{Externals}.

(** [mw_seqs[otu_id]]. *)
Definition lookup_seq (mw_seqs : gmap string string) (otu_id : string)
  : result string :=
  match mw_seqs !! otu_id with
  | Some seq => Ok seq
  | None => Raise (KeyError otu_id)
  end.

(** The five accumulators of the loop:
    [(tsv_lines, html_lines, mw_fasta_lines, plot_fps, plot_data_fps)]. *)
Definition report : Type :=
  string * string * string * list string * list string.

Definition tsv_header (suppress_taxonomic_output : bool) : string :=
  ("#" +:+ TAB +:+ "OTU ID" +:+ TAB +:+ "Sequence" +:+ TAB)
    +:+ (if negb suppress_taxonomic_output
         then "Greengenes taxonomy" +:+ TAB else "")
    +:+ ("NCBI nt closest match" +:+ TAB +:+ "NCBI nt % identity" +:+ NL).

Definition html_table_header (mapping_category : string)
    (suppress_taxonomic_output : bool) : string :=
  ("<table id=" +:+ DQ +:+ "most_wanted_otus_table" +:+ DQ +:+ " border="
     +:+ DQ +:+ "border" +:+ DQ +:+ "><tr><th>#</th><th>OTU</th>")
    +:+ (if negb suppress_taxonomic_output
         then "<th>Greengenes taxonomy</th>" else "")
    +:+ ("<th>NCBI nt closest match</th><th>Abundance by "
           +:+ mapping_category +:+ "</th></tr>").

(** The body of the loop over [enumerate(top_n_mw)]. *)
Definition report_step (mw_seqs : gmap string string)
    (master_otu_table_ms : biom_table) (output_img_dir mapping_category : string)
    (suppress_taxonomic_output : bool) (num_categories_to_plot : Z)
    (st : report) (item : Z * hit) : M report :=
  let '(tsv_lines, html_lines, mw_fasta_lines, plot_fps, plot_data_fps) := st in
  let '(mw_num, (otu_id, subject_id, percent_identity)) := item in
  seq ← lift (lookup_seq mw_seqs otu_id);
  let mw_fasta_lines :=
    mw_fasta_lines +:+ (">" +:+ otu_id +:+ NL +:+ seq +:+ NL) in
  let split_seq := chunks 40 seq in
  tax ← (if negb suppress_taxonomic_output
         then lift (observation_taxonomy master_otu_table_ms otu_id)
         else ret "");
  gb_id ← lift (index (split "|"%char subject_id) 3);
  let ncbi_link := "http://www.ncbi.nlm.nih.gov/nuccore/" +:+ gb_id in
  let samp_types := SampleIds master_otu_table_ms in
  counts ← lift (observationData master_otu_table_ms otu_id);
  pd ← _format_pie_chart_data samp_types counts num_categories_to_plot;
  let pie_chart_filename :=
    "abundance_by_" +:+ mapping_category +:+ "_" +:+ otu_id +:+ ".png" in
  let pie_chart_rel_fp :=
    path_join (basename (normpath output_img_dir)) pie_chart_filename in
  let pie_chart_abs_fp := path_join output_img_dir pie_chart_filename in
  _ ← emit (SaveFig pie_chart_abs_fp (fst (fst pd)) (snd pd));
  let plot_fps := plot_fps ++ [pie_chart_abs_fp] in
  let plot_data_fp :=
    path_join output_img_dir
      ("abundance_by_" +:+ mapping_category +:+ "_" +:+ otu_id +:+ ".p") in
  _ ← emit (Dump plot_data_fp pd);
  let plot_data_fps := plot_data_fps ++ [plot_data_fp] in
  let tsv_lines :=
    tsv_lines +:+ (str_of_int (mw_num + 1) +:+ TAB +:+ otu_id +:+ TAB
                     +:+ seq +:+ TAB) in
  let tsv_lines :=
    if negb suppress_taxonomic_output then tsv_lines +:+ (tax +:+ TAB)
    else tsv_lines in
  let tsv_lines :=
    tsv_lines +:+ (gb_id +:+ TAB +:+ str_of_float percent_identity +:+ NL) in
  let html_lines :=
    html_lines +:+ ("<tr><td>" +:+ str_of_int (mw_num + 1)
                      +:+ "</td><td><pre>&gt;" +:+ otu_id +:+ NL
                      +:+ join NL split_seq +:+ "</pre></td>") in
  let html_lines :=
    if negb suppress_taxonomic_output
    then html_lines +:+ ("<td>" +:+ tax +:+ "</td>")
    else html_lines in
  let html_lines :=
    html_lines +:+ ("<td><a href=" +:+ DQ +:+ ncbi_link +:+ DQ +:+ " target="
                      +:+ DQ +:+ "_blank" +:+ DQ +:+ ">" +:+ gb_id +:+ "</a> ("
                      +:+ str_of_float percent_identity +:+ "% sim.)</td>") in
  let legend_html := _format_legend_html pd in
  let html_lines :=
    html_lines +:+ ("<td><table><tr><td><img src=" +:+ DQ +:+ pie_chart_rel_fp
                      +:+ DQ +:+ " width=" +:+ DQ +:+ "300" +:+ DQ
                      +:+ " height=" +:+ DQ +:+ "300" +:+ DQ
                      +:+ " /></td><td>" +:+ legend_html
                      +:+ "</td></tr></table></tr>") in
  ret (tsv_lines, html_lines, mw_fasta_lines, plot_fps, plot_data_fps).

Definition _format_top_n_results_table (top_n_mw : list hit)
    (mw_seqs : gmap string string) (master_otu_table_ms : biom_table)
    (output_img_dir mapping_category : string)
    (suppress_taxonomic_output : bool) (num_categories_to_plot : Z)
  : M report :=
  '(tsv_lines, html_lines, mw_fasta_lines, plot_fps, plot_data_fps) ←
    fold_M (report_step mw_seqs master_otu_table_ms output_img_dir
              mapping_category suppress_taxonomic_output
              num_categories_to_plot)
           (enumerate top_n_mw)
           (tsv_header suppress_taxonomic_output,
            html_table_header mapping_category suppress_taxonomic_output,
            "", [], []);
  let html_lines := html_lines +:+ "</table>" in
  ret (tsv_lines, html_lines, mw_fasta_lines, plot_fps, plot_data_fps).

End Report.

(* ================================================================== *)
(** ** The workflow *)

Section Workflow.
Context `{Externals}.

(** The type of [status_update_callback], only handed on to the handler. *)
Context {callback : Type}.

Definition _get_rep_set_lookup (rep_set_f : list string)
  : result (gmap string string) :=
  records ← MinimalFastaParser rep_set_f;
  fold_result (fun (result : gmap string string) '(seq_id, seq) =>
                 seq_id ← index (split_ws (strip seq_id)) 0;
                 Ok (<[seq_id := seq]> result))
              records ∅.

(** A command: [(description, command line)]; the handler takes a list of
    lists of them. *)
Definition command : Type := string * string.

(** The body of the loop over [otu_table_fps]. *)
Definition filtering_step (output_dir gg_fp mapping_fp mapping_category : string)
    (min_abundance max_abundance : Z)
    (st : list (list command) * list string) (otu_table_fp : string)
  : list (list command) * list string :=
  let '(commands, otu_tables_to_merge) := st in
  let novel_otu_table_fp :=
    path_join output_dir (add_filename_suffix otu_table_fp "_novel") in
  let commands := commands ++
    [[("Filtering out all GG reference OTUs",
       "filter_otus_from_otu_table.py -i " +:+ otu_table_fp +:+ " -o "
         +:+ novel_otu_table_fp +:+ " -e " +:+ gg_fp)]] in
  let novel_abund_otu_table_fp :=
    path_join output_dir
      (add_filename_suffix novel_otu_table_fp
         ("_min" +:+ str_of_int min_abundance +:+ "_max"
            +:+ str_of_int max_abundance)) in
  let commands := commands ++
    [[("Filtering out all OTUs that do not fall within the "
         +:+ "specified abundance threshold",
       "filter_otus_from_otu_table.py -i " +:+ novel_otu_table_fp +:+ " -o "
         +:+ novel_abund_otu_table_fp +:+ " -n " +:+ str_of_int min_abundance
         +:+ " -x " +:+ str_of_int max_abundance)]] in
  let novel_abund_filtered_otu_table_fp :=
    path_join output_dir
      (add_filename_suffix novel_abund_otu_table_fp "_known_samples") in
  let commands := commands ++
    [[("Filtering out samples that are not in the mapping " +:+ "file",
       "filter_samples_from_otu_table.py -i " +:+ novel_abund_otu_table_fp
         +:+ " -o " +:+ novel_abund_filtered_otu_table_fp
         +:+ " --sample_id_fp " +:+ mapping_fp)]] in
  let otu_table_by_samp_type_fp :=
    path_join output_dir
      (add_filename_suffix novel_abund_filtered_otu_table_fp
         ("_" +:+ mapping_category)) in
  let commands := commands ++
    [[("Collapsing OTU table by " +:+ mapping_category,
       "summarize_otu_by_cat.py -c " +:+ novel_abund_filtered_otu_table_fp
         +:+ " -o " +:+ otu_table_by_samp_type_fp +:+ " -m "
         +:+ mapping_category +:+ " -i " +:+ mapping_fp)]] in
  (commands, otu_tables_to_merge ++ [otu_table_by_samp_type_fp]).

Definition _get_most_wanted_filtering_commands (output_dir : string)
    (otu_table_fps : list string)
    (rep_set_fp gg_fp nt_fp mapping_fp mapping_category : string)
    (min_abundance max_abundance min_categories : Z)
    (max_gg_similarity e_value : Q) (word_size : Z)
    (merged_otu_table_fp : option string) (jobs_to_start : Z)
  : list (list command) * string * string * string :=
  let commands : list (list command) := [] in
  let '(commands, master_otu_table_fp) :=
    match merged_otu_table_fp with
    | None =>
        let '(commands, otu_tables_to_merge) :=
          fold_left (filtering_step output_dir gg_fp mapping_fp
                       mapping_category min_abundance max_abundance)
                    otu_table_fps (commands, []) in
        let master_otu_table_fp :=
          path_join output_dir
            ("master_otu_table_novel_min" +:+ str_of_int min_abundance
               +:+ "_max" +:+ str_of_int max_abundance +:+ "_"
               +:+ mapping_category +:+ ".biom") in
        (commands ++
           [[("Merging collapsed OTU tables",
              "merge_otu_tables.py -i " +:+ join "," otu_tables_to_merge
                +:+ " -o " +:+ master_otu_table_fp)]],
         master_otu_table_fp)
    | Some fp => (commands, fp)
    end in
  let master_otu_table_ms_fp :=
    path_join output_dir
      (add_filename_suffix master_otu_table_fp
         ("_ms" +:+ str_of_int min_categories)) in
  let commands := commands ++
    [[("Filtering OTU table to include only OTUs that appear "
         +:+ "in at least " +:+ str_of_int min_categories +:+ " sample groups",
       "filter_otus_from_otu_table.py -i " +:+ master_otu_table_fp +:+ " -o "
         +:+ master_otu_table_ms_fp +:+ " -s " +:+ str_of_int min_categories)]]
  in
  let rep_set_cands_fp :=
    path_join output_dir (add_filename_suffix rep_set_fp "_candidates") in
  let commands := commands ++
    [[("Filtering representative set to include only the "
         +:+ "latest candidate OTUs",
       "filter_fasta.py -f " +:+ rep_set_fp +:+ " -o " +:+ rep_set_cands_fp
         +:+ " -b " +:+ master_otu_table_ms_fp)]] in
  let uclust_output_dir :=
    path_join output_dir
      ("most_wanted_candidates_" +:+ basename gg_fp +:+ "_"
         +:+ str_of_float max_gg_similarity) in
  let commands := commands ++
    [[("Running uclust to get list of sequences that don't "
         +:+ "hit the maximum GG similarity threshold",
       "parallel_pick_otus_uclust_ref.py -i " +:+ rep_set_cands_fp +:+ " -o "
         +:+ uclust_output_dir +:+ " -r " +:+ gg_fp +:+ " -s "
         +:+ str_of_float max_gg_similarity +:+ " -O "
         +:+ str_of_int jobs_to_start)]] in
  let rep_set_cands_failures_fp :=
    path_join output_dir (add_filename_suffix rep_set_cands_fp "_failures") in
  let commands := commands ++
    [[("Filtering candidate sequences to only include uclust " +:+ "failures",
       "filter_fasta.py -f " +:+ rep_set_cands_fp +:+ " -s "
         +:+ path_join uclust_output_dir
               (splitext_root (basename rep_set_cands_fp) +:+ "_failures.txt")
         +:+ " -o " +:+ rep_set_cands_failures_fp)]] in
  let blast_output_dir := path_join output_dir "blast_output" in
  let commands := commands ++
    [[("BLASTing filtered candidate sequences against nt " +:+ "database",
       "parallel_blast.py -i " +:+ rep_set_cands_failures_fp +:+ " -o "
         +:+ blast_output_dir +:+ " -r " +:+ nt_fp +:+ " -D -e "
         +:+ format_f e_value +:+ " -w " +:+ str_of_int word_size +:+ " -O "
         +:+ str_of_int jobs_to_start)]] in
  let blast_results_fp :=
    path_join blast_output_dir
      (splitext_root (basename rep_set_cands_failures_fp)
         +:+ "_blast_out.txt") in
  (commands, blast_results_fp, rep_set_cands_failures_fp,
   master_otu_table_ms_fp).

Definition html_header : string :=
  "<html lang=" +:+ DQ +:+ "en" +:+ DQ +:+ "><head><meta http-equiv=" +:+ DQ
    +:+ "Content-Type" +:+ DQ +:+ " content=" +:+ DQ
    +:+ "text/html; charset=utf-8" +:+ DQ
    +:+ "> <title>Most Wanted OTUs</title><link rel=" +:+ DQ +:+ "stylesheet"
    +:+ DQ +:+ " type=" +:+ DQ +:+ "text/css" +:+ DQ +:+ " href=" +:+ DQ
    +:+ "most_wanted_otus.css" +:+ DQ +:+ "></head><body>".

Definition html_footer : string := "</body></html>".

(** The [except OSError] clause of the first [try]. *)
Definition output_dir_exists (output_dir : string) (force : bool) : M unit :=
  if negb force then
    raise (WorkflowError
             ("Output directory '" +:+ output_dir +:+ "' already exists. Please "
                +:+ "choose a different directory, or force overwrite with -f."))
  else ret tt.

(** Everything after the first [try] statement. *)
Definition most_wanted_run (output_dir : string) (otu_table_fps : list string)
    (rep_set_fp gg_fp nt_fp mapping_fp mapping_category : string) (top_n : Z)
    (min_abundance max_abundance min_categories num_categories_to_plot : Z)
    (max_gg_similarity max_nt_similarity e_value : Q) (word_size : Z)
    (merged_otu_table_fp : option string) (suppress_taxonomic_output : bool)
    (jobs_to_start : Z)
    (command_handler : list (list command) -> callback -> string -> M unit)
    (status_update_callback : callback) : M unit :=
  let logger := generate_log_fp output_dir in
  _ ← emit (LogOpen logger);
  let '(commands, blast_results_fp, rep_set_cands_failures_fp,
        master_otu_table_ms_fp) :=
    _get_most_wanted_filtering_commands output_dir otu_table_fps rep_set_fp
      gg_fp nt_fp mapping_fp mapping_category min_abundance max_abundance
      min_categories max_gg_similarity e_value word_size merged_otu_table_fp
      jobs_to_start in
  _ ← command_handler commands status_update_callback logger;
  _ ← emit (LogWrite logger
              ("Reading in BLAST results, sorting by percent identity, "
                 +:+ "and picking the top " +:+ str_of_int top_n +:+ " OTUs."
                 +:+ NL +:+ NL));
  blast_results_f ← open_read blast_results_fp;
  top_n_mw ← lift (_get_top_n_blast_results blast_results_f top_n
                     max_nt_similarity);
  _ ← emit (LogWrite logger
              ("Reading in filtered candidate sequences and latest filtered "
                 +:+ "and collapsed OTU table." +:+ NL +:+ NL));
  rep_set_f ← open_read rep_set_cands_failures_fp;
  mw_seqs ← lift (_get_rep_set_lookup rep_set_f);
  table_f ← open_read master_otu_table_ms_fp;
  master_otu_table_ms ← lift (parse_biom_table table_f);
  _ ← emit (LogWrite logger
              ("Writing most wanted OTUs results to TSV and HTML "
                 +:+ "tables." +:+ NL +:+ NL));
  let output_img_dir := path_join output_dir "img" in
  _ ← try_except_OSError (makedirs output_img_dir) (ret tt);
  '(tsv_lines, html_table_lines, mw_fasta_lines, plot_fps, plot_data_fps) ←
    _format_top_n_results_table top_n_mw mw_seqs master_otu_table_ms
      output_img_dir mapping_category suppress_taxonomic_output
      num_categories_to_plot;
  let mw_tsv_rel_fp := "most_wanted_otus.txt" in
  let mw_tsv_fp := path_join output_dir mw_tsv_rel_fp in
  _ ← write_file mw_tsv_fp tsv_lines;
  let mw_fasta_rel_fp := "most_wanted_otus.fasta" in
  let mw_fasta_fp := path_join output_dir mw_fasta_rel_fp in
  _ ← write_file mw_fasta_fp mw_fasta_lines;
  let html_dl_links :=
    "<a href=" +:+ DQ +:+ mw_tsv_rel_fp +:+ DQ +:+ " target=" +:+ DQ
      +:+ "_blank" +:+ DQ +:+ ">Download table in tab-"
      +:+ "separated value (TSV) format</a><br /><a href=" +:+ DQ
      +:+ mw_fasta_rel_fp +:+ DQ +:+ " target=" +:+ DQ +:+ "_blank" +:+ DQ
      +:+ ">Download OTU sequence data in FASTA format</a>" in
  let html_lines :=
    html_header +:+ "<div>" +:+ html_dl_links +:+ "<br /><br />"
      +:+ html_table_lines +:+ "<br />" +:+ html_dl_links +:+ "</div>"
      +:+ html_footer in
  _ ← write_file (path_join output_dir "most_wanted_otus.html") html_lines;
  emit (LogClose logger).

Definition generate_most_wanted_list (output_dir : string)
    (otu_table_fps : list string)
    (rep_set_fp gg_fp nt_fp mapping_fp mapping_category : string) (top_n : Z)
    (min_abundance max_abundance min_categories num_categories_to_plot : Z)
    (max_gg_similarity max_nt_similarity e_value : Q) (word_size : Z)
    (merged_otu_table_fp : option string) (suppress_taxonomic_output : bool)
    (jobs_to_start : Z)
    (command_handler : list (list command) -> callback -> string -> M unit)
    (status_update_callback : callback) (force : bool) : M unit :=
  _ ← try_except_OSError (makedirs output_dir)
        (output_dir_exists output_dir force);
  most_wanted_run output_dir otu_table_fps rep_set_fp gg_fp nt_fp mapping_fp
    mapping_category top_n min_abundance max_abundance min_categories
    num_categories_to_plot max_gg_similarity max_nt_similarity e_value
    word_size merged_otu_table_fp suppress_taxonomic_output jobs_to_start
    command_handler status_update_callback.

End Workflow.

(* ================================================================== *)
(** ** A sample environment

    One concrete choice of the outside functions, small enough to run the
    examples: decimal literals for [float], POSIX-like paths, a palette of
    three colors, a FASTA reader, and a biom parser that knows one table. *)

Module Sample.

Fixpoint digits_value (s : string) (acc : Z) : option Z :=
  match s with
  | EmptyString => Some acc
  | String c s' =>
      let n := nat_of_ascii c in
      if (48 <=? n)%nat && (n <=? 57)%nat
      then digits_value s' (10 * acc + Z.of_nat (n - 48))%Z
      else None
  end.

Definition unsigned_decimal (s : string) : option Q :=
  match split "."%char s with
  | [ip] =>
      if nonempty ip
      then match digits_value ip 0 with
           | Some z => Some (z # 1)
           | None => None
           end
      else None
  | [ip; fp] =>
      if nonempty (ip +:+ fp)
      then match digits_value (ip +:+ fp) 0 with
           | Some z => Some (z # Z.to_pos (10 ^ Z.of_nat (String.length fp)))
           | None => None
           end
      else None
  | _ => None
  end.

(** Decimal literals with an optional sign: ["5.0"] is [50 # 10]. *)
Definition decimal_float (s : string) : option Q :=
  match strip s with
  | String "-"%char s' => Qopp <$> unsigned_decimal s'
  | String "+"%char s' => unsigned_decimal s'
  | s' => unsigned_decimal s'
  end.

Fixpoint frac_digits (fuel : nat) (r d : Z) : string :=
  match fuel with
  | O => ""
  | S fuel' =>
      if (r =? 0)%Z then ""
      else str_of_int (10 * r / d) +:+ frac_digits fuel' (10 * r mod d)%Z d
  end.

(** The decimal expansion, cut after twelve decimals. *)
Definition decimal_str (q : Q) : string :=
  let n := Z.abs (Qnum q) in
  let d := Zpos (Qden q) in
  let fd := frac_digits 12 (n mod d) d in
  (if Qle_bool 0 q then "" else "-")
    +:+ str_of_int (n / d) +:+ "." +:+ (if nonempty fd then fd else "0").

Definition three_colors : list string := ["#0000ff"; "#ff0000"; "#00ff00"].

Definition endswith_slash (s : string) : bool :=
  match rev (list_ascii_of_string s) with
  | c :: _ => Ascii.eqb c "/"
  | [] => false
  end.

Definition posix_join (a b : string) : string :=
  if startswith "/" b then b
  else if negb (nonempty a) || endswith_slash a then a +:+ b
  else a +:+ "/" +:+ b.

Definition posix_basename (p : string) : string :=
  List.last (split "/"%char p) "".

Definition posix_normpath (p : string) : string :=
  join "/" (filter (fun piece => nonempty piece) (split "/"%char p)).

Definition splitext (p : string) : string * string :=
  match rev (split "."%char p) with
  | [] | [_] => (p, "")
  | ext :: root => (join "." (rev root), "." +:+ ext)
  end.

Definition suffix_filename (fp suffix : string) : string :=
  let '(root, ext) := splitext (posix_basename fp) in
  root +:+ suffix +:+ ext.

Definition log_fp (output_dir : string) : string :=
  posix_join output_dir "log.txt".

Fixpoint fasta_records (lines : list string) (cur : option (string * string))
  : list (string * string) :=
  match lines with
  | [] => match cur with Some r => [r] | None => [] end
  | line :: lines' =>
      match strip line with
      | String ">"%char label =>
          match cur with
          | Some r => r :: fasta_records lines' (Some (label, ""))
          | None => fasta_records lines' (Some (label, ""))
          end
      | seq =>
          match cur with
          | Some (label, seq0) =>
              fasta_records lines' (Some (label, seq0 +:+ seq))
          | None => fasta_records lines' None
          end
      end
  end.

Definition fasta_parser (lines : list string)
  : result (list (string * string)) :=
  Ok (fasta_records lines None).

(** Two sample groups and two OTUs. *)
Definition table : biom_table := {|
  SampleIds := ["soil"; "water"];
  observationData := fun otu_id =>
    if String.eqb otu_id "OTU1" then Ok [10; 30]%Q
    else if String.eqb otu_id "OTU2" then Ok [4; 0]%Q
    else Raise (KeyError otu_id);
  observation_taxonomy := fun otu_id =>
    if String.eqb otu_id "OTU1" then Ok "k__Bacteria"
    else if String.eqb otu_id "OTU2" then Ok "k__Archaea"
    else Raise (KeyError otu_id)
|}.

Definition table_parser (lines : list string) : result biom_table :=
  Ok table.

#[export] Instance externals : Externals := {|
  float_of_string := decimal_float;
  str_of_float := decimal_str;
  palette := three_colors;
  path_join := posix_join;
  basename := posix_basename;
  normpath := posix_normpath;
  splitext_root := fun p => fst (splitext p);
  add_filename_suffix := suffix_filename;
  generate_log_fp := log_fp;
  MinimalFastaParser := fasta_parser;
  parse_biom_table := table_parser
|}.

Definition empty_world : world :=
  {| iters := []; dirs := ∅; files := ∅; trace := [] |}.

(** A world in which an earlier call has left its iterator, one color on. *)
Definition used_world : world :=
  {| iters := [{| cyc_items := three_colors; cyc_pos := 1 |}];
     dirs := ∅; files := ∅; trace := [] |}.

(** Two ranked results, with subjects that carry a GenBank id, and their
    sequences. *)
Definition ranked : list hit :=
  [("OTU2", "gi|2|gb|AB000002.1|", 2.0%Q);
   ("OTU1", "gi|1|gb|AB000001.1|", 5.0%Q)].

Definition seqs : gmap string string :=
  <["OTU1" := "ACGTACGTAC"]> (<["OTU2" := "GGCCGGCC"]> ∅).

(** What the assembler returns for them. *)
Definition ranked_report : report :=
  Eval vm_compute in
    match fst (_format_top_n_results_table ranked seqs table "out/img" "ENV"
                 false 2 empty_world) with
    | Ok r => r
    | Raise _ => ("", "", "", [], [])
    end.

(** The arguments of a run of the whole workflow. *)
Definition run_commands : list (list command) * string * string * string :=
  _get_most_wanted_filtering_commands "out" ["otus.biom"] "rep_set.fna"
    "gg.fna" "nt.fna" "map.txt" "ENV" 10 100 2 0.97 0.001 30 None 4.

(** A handler that runs no tool and puts in place the files the tools would
    have written. *)
Definition tools (commands : list (list command)) (status : unit)
    (logger : string) : M unit :=
  let '(_, blast_results_fp, rep_set_cands_failures_fp,
        master_otu_table_ms_fp) := run_commands in
  _ ← emit (LogWrite logger "commands done");
  _ ← write_file blast_results_fp
        ("# BLASTN" +:+ NL
           +:+ "OTU1" +:+ TAB +:+ "gi|1|gb|AB000001.1|" +:+ TAB +:+ "5.0" +:+ NL
           +:+ "OTU2" +:+ TAB +:+ "gi|2|gb|AB000002.1|" +:+ TAB +:+ "2.0" +:+ NL);
  _ ← write_file rep_set_cands_failures_fp
        (">OTU1 sample1_1" +:+ NL +:+ "ACGTACGTAC" +:+ NL
           +:+ ">OTU2 sample2_7" +:+ NL +:+ "GGCCGGCC" +:+ NL);
  write_file master_otu_table_ms_fp "biom".


(** A line of tabular BLAST output. *)
Definition blast_line (otu_id subject_id percent_identity : string) : string :=
  otu_id +:+ TAB +:+ subject_id +:+ TAB +:+ percent_identity +:+ NL.

(** Three hits, two of them of the same query, under a comment line. *)
Definition blast_output : list string :=
  ["# BLASTN 2.2.22 [Sep-27-2009]" +:+ NL;
   blast_line "OTU1" "gi|1" "5.0";
   blast_line "OTU2" "gi|2" "2.0";
   blast_line "OTU1" "gi|3" "1.0"].

(** The first hit of OTU1 is over a threshold of 0.1, the second is not. *)
Definition blast_output_late : list string :=
  [blast_line "OTU1" "gi|1" "50.0"; blast_line "OTU1" "gi|3" "1.0"].

(** A line with two fields, and a line whose third field is no number. *)
Definition blast_output_short : list string :=
  ["OTU1" +:+ TAB +:+ "gi|1" +:+ NL; blast_line "OTU2" "gi|2" "2.0"].

Definition blast_output_text : list string :=
  [blast_line "OTU1" "gi|1" "high"; blast_line "OTU2" "gi|2" "2.0"].

(** Two hits with the same percent identity. *)
Definition blast_output_tie : list string :=
  [blast_line "OTU1" "gi|1" "2.0"; blast_line "OTU2" "gi|2" "2.0"].

(** Only a comment and a blank line. *)
Definition blast_output_blank : list string := ["# BLASTN" +:+ NL; NL].

(** What the summarizer returns for the groups A, B, C. *)
Definition abc_plot : plot_data :=
  Eval vm_compute in
    match fst (_format_pie_chart_data ["A"; "B"; "C"] [10; 30; 5]%Q 2
                 empty_world) with
    | Ok pd => pd
    | Raise _ => ([], [], [])
    end.

(** A sequence file with two records of the same OTU, and its lookup. *)
Definition fasta_twice : list string :=
  [">OTU1 sample1_1" +:+ NL; "ACGT" +:+ NL;
   ">OTU1 sample2_5" +:+ NL; "GGCC" +:+ NL].

Definition twice_lookup : gmap string string :=
  match _get_rep_set_lookup fasta_twice with
  | Ok result => result
  | Raise _ => ∅
  end.

(** A run of the whole workflow from the empty world. *)
Definition run_result : result unit * world :=
  @generate_most_wanted_list externals unit "out" ["otus.biom"] "rep_set.fna"
    "gg.fna" "nt.fna" "map.txt" "ENV" 2 10 100 2 2 0.97 0.1 0.001 30 None
    false 4 tools tt false empty_world.



(** The assembler on the first ranked result alone. *)
Definition first_report : result report * world :=
  _format_top_n_results_table (firstn 1 ranked) seqs table "out/img" "ENV"
    false 2 empty_world.

End Sample.

(* ================================================================== *)
(** * Vocabulary of the statements

    Definitions used to state the properties; none of them is part of the
    program. *)

(** The order [sorted] establishes: ascending keys, or descending ones when
    reversed. *)
Definition in_order {A} (key : A -> Q) (reverse : bool) (x y : A) : Prop :=
  if reverse then (key y <= key x)%Q else (key x <= key y)%Q.

Section SelectorVocabulary.
Context `{Externals}.

(** A line the loop passes over: blank once stripped, or a comment. *)
Definition skipped (line : string) : bool :=
  negb (nonempty (strip line) && negb (startswith "#" (strip line))).

(** The hit on a line that is not passed over. *)
Definition parse_line (line : string) : result hit :=
  '(otu_id, subject_id, percent_identity) ← unpack3 (split tab (strip line));
  percent_identity ← float percent_identity;
  Ok (otu_id, subject_id, percent_identity).

(** A line that is not passed over and has fewer than three tab-separated
    fields, or a third field that [float] rejects. *)
Definition malformed (line : string) : bool :=
  negb (skipped line)
  && match split tab (strip line) with
     | _ :: _ :: percent_identity :: _ =>
         match float_of_string percent_identity with
         | Some _ => false
         | None => true
         end
     | _ => true
     end.

(** The hits of the lines, in input order. *)
Fixpoint parsed_hits (lines : list string) : result (list hit) :=
  match lines with
  | [] => Ok []
  | line :: lines' =>
      if skipped line then parsed_hits lines'
      else h ← parse_line line; hits ← parsed_hits lines'; Ok (h :: hits)
  end.

(** The similarity test of the selector. *)
Definition below_threshold (max_nt_similarity : Q) (h : hit) : bool :=
  Qle_bool (hit_pi h / 100) max_nt_similarity.

(** The first hit of a query, in input order, that passes the similarity
    test. *)
Definition first_accepted (max_nt_similarity : Q) (hits : list hit)
    (otu_id : string) : option hit :=
  find (fun h => String.eqb (hit_otu h) otu_id
                 && below_threshold max_nt_similarity h) hits.

(** What a hit does to the two accumulators of the loop. *)
Definition select (max_nt_similarity : Q) (st : list hit * gmap string bool)
    (h : hit) : list hit * gmap string bool :=
  if accepts max_nt_similarity (snd st) (hit_otu h) (hit_pi h)
  then (fst st ++ [h], <[hit_otu h := true]> (snd st))
  else st.

(** What holds of the two accumulators once the hits [seen_hits] have gone
    by. *)
Record selector_inv (thr : Q) (seen_hits : list hit)
    (st : list hit * gmap string bool) : Prop := {
  inv_below : Forall (fun h => below_threshold thr h = true) (fst st);
  inv_nodup : List.NoDup (map hit_otu (fst st));
  inv_seen : forall otu_id,
      is_Some (snd st !! otu_id) <-> In otu_id (map hit_otu (fst st));
  inv_first : forall h,
      In h (fst st) -> first_accepted thr seen_hits (hit_otu h) = Some h;
  inv_all : forall h,
      In h seen_hits -> below_threshold thr h = true ->
      In (hit_otu h) (map hit_otu (fst st))
}.

End SelectorVocabulary.

(** The world with its iterator objects replaced. *)
Definition with_iters (its : list cycle_iter) (w : world) : world :=
  {| iters := its; dirs := dirs w; files := files w; trace := trace w |}.

Section SummarizerVocabulary.
Context `{Externals}.

(** The color a cycle over the palette, started at the first color, hands to
    the group at input position [i]. *)
Definition color_at (i : nat) : string :=
  nth (i mod length palette) palette "".

(** The groups at input positions [i], [i + 1], ... with their colors. *)
Fixpoint colored_from (i : nat) (groups : list (Q * string)) : list group :=
  match groups with
  | [] => []
  | (val, label) :: groups' => (val, label, color_at i) :: colored_from (S i) groups'
  end.

(** The groups the summarizer keeps: the first [max_count] of the input
    groups once sorted by descending count. *)
Definition kept_groups (data : list Q) (labels : list string) (max_count : Z)
  : list group :=
  slice_to max_count (sorted group_val true (colored_from 0 (zip data labels))).

(** A group with its count divided by [total]. *)
Definition normalised (total : Q) (g : group) : group :=
  ((group_val g / total)%Q, group_label g, group_color g).

(** The kept groups normalised by their own total, as three sequences; a
    zero total cannot divide the first count. *)
Definition summary_of (kept : list group) : result plot_data :=
  let total := sum (map group_val kept) in
  match kept with
  | [] => Ok ([], [], [])
  | _ :: _ =>
      if Qeq_bool total 0 then Raise ZeroDivisionError
      else Ok (map (fun g => (group_val g / total)%Q) kept,
               map (fun g => format_label (group_label g)
                               (group_val g / total)) kept,
               map group_color kept)
  end.

(** What the summarizer returns or raises, without the world. *)
Definition pie_chart_result (labels : list string) (data : list Q)
    (max_count : Z) : result plot_data :=
  if negb (length labels =? length data)%nat then
    Raise (ValueError
             "The number of labels does not match the number of counts.")
  else
    match palette, zip data labels with
    | [], _ :: _ => Raise StopIteration
    | _, _ => summary_of (kept_groups data labels max_count)
    end.

(** The total the kept counts are divided by. *)
Definition kept_total (data : list Q) (labels : list string) (max_count : Z)
  : Q :=
  sum (map group_val (kept_groups data labels max_count)).

(** The iterator a call leaves behind in the store. *)
Definition spent_cycle (data : list Q) (labels : list string) : cycle_iter :=
  {| cyc_items := palette;
     cyc_pos := match palette with
                | [] => 0
                | _ :: _ => length (zip data labels) mod length palette
                end |}.

End SummarizerVocabulary.

Section ReportVocabulary.
Context `{Externals}.

(** What the report says about one ranked result: its row number, the hit,
    and what the loop looked up or computed for it. *)
Record entry : Type := {
  e_num : Z;
  e_hit : hit;
  e_seq : string;
  e_tax : string;
  e_gb_id : string;
  e_plot : plot_data
}.

(** The row of the TSV table for an entry. *)
Definition tsv_row (suppress_taxonomic_output : bool) (e : entry) : string :=
  (str_of_int (e_num e) +:+ TAB +:+ hit_otu (e_hit e) +:+ TAB
     +:+ e_seq e +:+ TAB)
    +:+ (if negb suppress_taxonomic_output then e_tax e +:+ TAB else "")
    +:+ (e_gb_id e +:+ TAB +:+ str_of_float (hit_pi (e_hit e)) +:+ NL).

(** The FASTA record for an entry. *)
Definition fasta_record (e : entry) : string :=
  ">" +:+ hit_otu (e_hit e) +:+ NL +:+ e_seq e +:+ NL.

(** The row of the HTML table for an entry. *)
Definition html_row (output_img_dir mapping_category : string)
    (suppress_taxonomic_output : bool) (e : entry) : string :=
  ("<tr><td>" +:+ str_of_int (e_num e) +:+ "</td><td><pre>&gt;"
     +:+ hit_otu (e_hit e) +:+ NL +:+ join NL (chunks 40 (e_seq e))
     +:+ "</pre></td>")
    +:+ (if negb suppress_taxonomic_output
         then "<td>" +:+ e_tax e +:+ "</td>" else "")
    +:+ ("<td><a href=" +:+ DQ
           +:+ ("http://www.ncbi.nlm.nih.gov/nuccore/" +:+ e_gb_id e) +:+ DQ
           +:+ " target=" +:+ DQ +:+ "_blank" +:+ DQ +:+ ">" +:+ e_gb_id e
           +:+ "</a> (" +:+ str_of_float (hit_pi (e_hit e))
           +:+ "% sim.)</td>")
    +:+ ("<td><table><tr><td><img src=" +:+ DQ
           +:+ path_join (basename (normpath output_img_dir))
                 ("abundance_by_" +:+ mapping_category +:+ "_"
                    +:+ hit_otu (e_hit e) +:+ ".png")
           +:+ DQ +:+ " width=" +:+ DQ +:+ "300" +:+ DQ +:+ " height=" +:+ DQ
           +:+ "300" +:+ DQ +:+ " /></td><td>"
           +:+ _format_legend_html (e_plot e) +:+ "</td></tr></table></tr>").

(** The number of newline characters of a text: the number of its lines
    when it ends with one. *)
Fixpoint newlines (s : string) : nat :=
  match s with
  | EmptyString => 0
  | String c s' => (if Ascii.eqb c nl then 1 else 0) + newlines s'
  end.

(** No field of the entry's TSV row runs over a line. *)
Definition one_line_fields (suppress_taxonomic_output : bool) (e : entry)
  : Prop :=
  newlines (hit_otu (e_hit e)) = 0
  /\ newlines (e_seq e) = 0
  /\ (suppress_taxonomic_output = false -> newlines (e_tax e) = 0)
  /\ newlines (e_gb_id e) = 0
  /\ newlines (str_of_float (hit_pi (e_hit e))) = 0.

(** The entry was looked up where the loop looks: the sequence in
    [mw_seqs], the GenBank id in the fourth [|]-field of the subject, the
    taxonomy (when shown) in the table. *)
Definition entry_of (mw_seqs : gmap string string)
    (master_otu_table_ms : biom_table) (suppress_taxonomic_output : bool)
    (e : entry) : Prop :=
  mw_seqs !! hit_otu (e_hit e) = Some (e_seq e)
  /\ index (split "|"%char (hit_subject (e_hit e))) 3 = Ok (e_gb_id e)
  /\ (suppress_taxonomic_output = false ->
      observation_taxonomy master_otu_table_ms (hit_otu (e_hit e))
      = Ok (e_tax e)).

End ReportVocabulary.

(** The input positions of the groups the summarizer keeps, in the order it
    returns them: the positions sorted by descending count, cut at
    [max_count]. *)
Definition kept_positions (data : list Q) (max_count : Z) : list nat :=
  slice_to max_count
    (sorted (fun i => nth i data 0%Q) true (seq 0 (length data))).

(** Whether a text holds a whitespace character. *)
Fixpoint has_space (s : string) : bool :=
  match s with
  | EmptyString => false
  | String c s' => is_space c || has_space s'
  end.

(** Whether the first whitespace-delimited word of a FASTA label is
    [seq_id]. *)
Definition labelled (seq_id : string) (record : string * string) : bool :=
  match split_ws (fst record) with
  | word :: _ => String.eqb word seq_id
  | [] => false
  end.

(** [w'] is [w] with more iterators and more effects at most: the same
    directories and files, the iterators and effects of [w] still there. *)
Definition extends (w w' : world) : Prop :=
  dirs w' = dirs w
  /\ files w' = files w
  /\ (exists its, iters w' = iters w ++ its)
  /\ (exists evs, trace w' = trace w ++ evs).

Section ChartVocabulary.
Context `{Externals}.

(** The path of the chart image ([ext] is [.png]) or of the pickled chart data
    ([ext] is [.p]) of a hit. *)
Definition chart_fp (output_img_dir mapping_category ext : string) (h : hit)
  : string :=
  path_join output_img_dir
    ("abundance_by_" +:+ mapping_category +:+ "_" +:+ hit_otu h +:+ ext).

(** The two effects of one pass of the report loop. *)
Definition chart_events (output_img_dir mapping_category : string)
    (item : hit * plot_data) : list event :=
  [SaveFig (chart_fp output_img_dir mapping_category ".png" (fst item))
     (fst (fst (snd item))) (snd (snd item));
   Dump (chart_fp output_img_dir mapping_category ".p" (fst item)) (snd item)].

(** The chart of a hit: what the summarizer returns, in any world, for the
    sample groups and the counts of the hit's OTU. *)
Definition chart_of (master_otu_table_ms : biom_table)
    (num_categories_to_plot : Z) (h : hit) (pd : plot_data) : Prop :=
  exists counts,
    observationData master_otu_table_ms (hit_otu h) = Ok counts
    /\ forall w0,
        fst (_format_pie_chart_data (SampleIds master_otu_table_ms) counts
               num_categories_to_plot w0)
        = Ok pd.



End ChartVocabulary.

(* ================================================================== *)
(** * Properties *)

(** ** Results and loops *)

Lemma rbind_Ok {A B} (r : result A) (k : A -> result B) (b : B) :
  rbind r k = Ok b -> exists a, r = Ok a /\ k a = Ok b.
Proof. destruct r as [a|e]; simpl; [eauto | discriminate]. Qed.

(** An invariant of the loop body holds when the loop ends normally. *)
Lemma fold_result_invariant {A S} (P : S -> Prop) (body : S -> A -> result S) :
  (forall st x st', P st -> body st x = Ok st' -> P st') ->
  forall l st st', P st -> fold_result body l st = Ok st' -> P st'.
Proof.
  intros Hstep l. induction l as [|x l IH]; intros st st' HP Hrun; simpl in Hrun.
  - now inversion Hrun; subst.
  - apply rbind_Ok in Hrun as (st1 & Hbody & Hrest). eauto.
Qed.

(** ** Slices *)

Lemma slice_to_firstn {A} (n : Z) (l : list A) :
  exists k, slice_to n l = firstn k l.
Proof. unfold slice_to. destruct (0 <=? n)%Z; eauto. Qed.

Lemma slice_to_length {A} (n : Z) (l : list A) :
  (0 <= n)%Z -> (Z.of_nat (length (slice_to n l)) <= n)%Z.
Proof.
  intros Hn. unfold slice_to.
  destruct (Z.leb_spec 0 n) as [_|Hneg]; [|lia].
  rewrite length_firstn. lia.
Qed.

Lemma slice_to_all {A} (n : Z) (l : list A) :
  (Z.of_nat (length (slice_to n l)) < n)%Z -> slice_to n l = l.
Proof.
  unfold slice_to. destruct (Z.leb_spec 0 n) as [Hn|Hneg].
  - rewrite length_firstn. intros Hlt. apply firstn_all2. lia.
  - intros Hlt. lia.
Qed.

Lemma firstn_In {A} (k : nat) (l : list A) (x : A) :
  In x (firstn k l) -> In x l.
Proof. rewrite <- (firstn_skipn k l) at 2. intros Hin. apply in_or_app. now left. Qed.

Lemma firstn_Forall {A} (P : A -> Prop) (k : nat) (l : list A) :
  Forall P l -> Forall P (firstn k l).
Proof.
  rewrite !List.Forall_forall. intros Hall x Hin. apply Hall. eapply firstn_In, Hin.
Qed.

Lemma firstn_StronglySorted {A} (R : A -> A -> Prop) (k : nat) (l : list A) :
  StronglySorted R l -> StronglySorted R (firstn k l).
Proof.
  intros Hs. revert k. induction Hs as [|x l Hs IH Hx]; intros [|k]; simpl;
    try constructor; auto.
  now apply firstn_Forall.
Qed.

Lemma firstn_NoDup_map {A B} (f : A -> B) (k : nat) (l : list A) :
  List.NoDup (map f l) -> List.NoDup (map f (firstn k l)).
Proof.
  rewrite <- (firstn_skipn k l) at 1. rewrite map_app.
  apply List.NoDup_app_remove_r.
Qed.

(** ** The stable sort *)

Section SortedFacts.
Context {A : Type} (key : A -> Q) (reverse : bool).

Lemma precedes_in_order (x y : A) :
  precedes key reverse x y = true <-> in_order key reverse x y.
Proof. unfold precedes, in_order. destruct reverse; apply Qle_bool_iff. Qed.

Lemma not_precedes_in_order (x y : A) :
  precedes key reverse x y = false -> in_order key reverse y x.
Proof.
  intros Hf. assert (Hn : ~ in_order key reverse x y).
  { rewrite <- precedes_in_order, Hf. discriminate. }
  unfold in_order in *. destruct reverse;
    apply Qlt_le_weak, Qnot_le_lt, Hn.
Qed.

Lemma in_order_trans (x y z : A) :
  in_order key reverse x y -> in_order key reverse y z ->
  in_order key reverse x z.
Proof.
  unfold in_order. destruct reverse; intros Hxy Hyz;
    eapply Qle_trans; eassumption.
Qed.

Lemma insert_sorted_Permutation (x : A) (l : list A) :
  Permutation (insert_sorted key reverse x l) (x :: l).
Proof.
  induction l as [|y l IH]; simpl; [reflexivity|].
  destruct (precedes key reverse x y); [reflexivity|].
  rewrite IH. apply perm_swap.
Qed.

Lemma sorted_Permutation (l : list A) : Permutation (sorted key reverse l) l.
Proof.
  induction l as [|x l IH]; simpl; [reflexivity|].
  rewrite insert_sorted_Permutation. now constructor.
Qed.

Lemma insert_sorted_StronglySorted (x : A) (l : list A) :
  StronglySorted (in_order key reverse) l ->
  StronglySorted (in_order key reverse) (insert_sorted key reverse x l).
Proof.
  induction 1 as [|y l Hs IH Hy]; simpl.
  - repeat constructor.
  - destruct (precedes key reverse x y) eqn:Hxy.
    + apply precedes_in_order in Hxy. constructor; [now constructor|].
      constructor; [assumption|].
      eapply List.Forall_impl; [|exact Hy]. intros z Hyz.
      eapply in_order_trans; eassumption.
    + apply not_precedes_in_order in Hxy. constructor; [assumption|].
      eapply Permutation_Forall.
      * symmetry. apply insert_sorted_Permutation.
      * now constructor.
Qed.

Lemma sorted_StronglySorted (l : list A) :
  StronglySorted (in_order key reverse) (sorted key reverse l).
Proof.
  induction l as [|x l IH]; simpl; [constructor|].
  now apply insert_sorted_StronglySorted.
Qed.

End SortedFacts.

Lemma insert_sorted_map {A B} (g : A -> B) (key : B -> Q) (reverse : bool)
    (x : A) (l : list A) :
  insert_sorted key reverse (g x) (map g l)
  = map g (insert_sorted (fun a => key (g a)) reverse x l).
Proof.
  induction l as [|y l IH]; simpl; [reflexivity|].
  change (precedes key reverse (g x) (g y))
    with (precedes (fun a => key (g a)) reverse x y).
  destruct (precedes (fun a => key (g a)) reverse x y); simpl;
    [reflexivity | now rewrite IH].
Qed.

(** Sorting the images is sorting by the key of the image. *)
Lemma sorted_map {A B} (g : A -> B) (key : B -> Q) (reverse : bool)
    (l : list A) :
  sorted key reverse (map g l)
  = map g (sorted (fun a => key (g a)) reverse l).
Proof.
  induction l as [|x l IH]; simpl; [reflexivity|].
  now rewrite IH, insert_sorted_map.
Qed.

Lemma slice_to_map {A B} (g : A -> B) (n : Z) (l : list A) :
  slice_to n (map g l) = map g (slice_to n l).
Proof.
  unfold slice_to. rewrite length_map.
  destruct (0 <=? n)%Z; now rewrite firstn_map.
Qed.

Lemma slice_to_length_min {A} (n : Z) (l : list A) :
  (0 <= n)%Z -> length (slice_to n l) = Nat.min (Z.to_nat n) (length l).
Proof.
  intros Hn. unfold slice_to. destruct (Z.leb_spec 0 n) as [_|Hneg]; [|lia].
  apply length_firstn.
Qed.

(** ** The loop of the selector *)

Section SelectorFacts.
Context `{Externals}.

Lemma selector_step_skipped thr st line :
  skipped line = true -> selector_step thr st line = Ok st.
Proof.
  unfold skipped, selector_step. destruct st as [result seen_otus].
  intros Hs. apply negb_true_iff in Hs. now rewrite Hs.
Qed.

Lemma selector_step_parsed thr st line :
  skipped line = false ->
  selector_step thr st line = rbind (parse_line line) (fun h => Ok (select thr st h)).
Proof.
  unfold skipped, selector_step, parse_line, select.
  destruct st as [result seen_otus]. intros Hs. apply negb_false_iff in Hs.
  rewrite Hs. unfold_bind.
  destruct (unpack3 (split tab (strip line))) as [[[otu_id subject_id] pi]|e];
    simpl; [|reflexivity].
  destruct (float pi) as [x|e]; simpl; [|reflexivity].
  unfold hit_otu, hit_pi; simpl. now destruct (accepts thr seen_otus otu_id x).
Qed.

(** The loop is the parse of the lines followed by [select] on each hit. *)
Lemma selector_loop thr lines st :
  fold_result (selector_step thr) lines st
  = rbind (parsed_hits lines) (fun hits => Ok (fold_left (select thr) hits st)).
Proof.
  revert st. induction lines as [|line lines IH]; intros st; simpl;
    [reflexivity|].
  destruct (skipped line) eqn:Hs.
  - rewrite selector_step_skipped by assumption. simpl. apply IH.
  - rewrite selector_step_parsed by assumption. unfold_bind.
    destruct (parse_line line) as [h|e]; simpl; [|reflexivity].
    rewrite IH. now destruct (parsed_hits lines).
Qed.

Lemma top_n_of_parsed lines top_n thr :
  _get_top_n_blast_results lines top_n thr
  = rbind (parsed_hits lines)
      (fun hits =>
         Ok (slice_to top_n
               (sorted hit_pi false (fst (fold_left (select thr) hits ([], ∅)))))).
Proof.
  unfold _get_top_n_blast_results. unfold_bind. rewrite selector_loop.
  destruct (parsed_hits lines) as [hits|e]; simpl; [|reflexivity].
  now destruct (fold_left (select thr) hits ([], ∅)).
Qed.

End SelectorFacts.

(** ** What the loop of the selector keeps *)

Section SelectorInvariant.
Context `{Externals}.
Variable thr : Q.

Lemma selector_inv_start : selector_inv thr [] ([], ∅).
Proof.
  split; simpl.
  - constructor.
  - constructor.
  - intros otu_id. rewrite lookup_empty. split; [intros [? ?]; discriminate | tauto].
  - tauto.
  - tauto.
Qed.

Lemma first_accepted_app_Some hits more otu_id h :
  first_accepted thr hits otu_id = Some h ->
  first_accepted thr (hits ++ more) otu_id = Some h.
Proof.
  unfold first_accepted. induction hits as [|x hits IH]; simpl; [discriminate|].
  destruct (_ && _); auto.
Qed.

Lemma first_accepted_app_None hits more otu_id :
  first_accepted thr hits otu_id = None ->
  first_accepted thr (hits ++ more) otu_id = first_accepted thr more otu_id.
Proof.
  unfold first_accepted. induction hits as [|x hits IH]; simpl; [reflexivity|].
  destruct (_ && _); [discriminate | auto].
Qed.

Lemma first_accepted_Some hits otu_id h :
  first_accepted thr hits otu_id = Some h ->
  In h hits /\ hit_otu h = otu_id /\ below_threshold thr h = true.
Proof.
  unfold first_accepted. intros Hf. apply find_some in Hf as [Hin Hb].
  apply andb_true_iff in Hb as [Heq Hb]. apply String.eqb_eq in Heq. auto.
Qed.

Lemma first_accepted_None hits otu_id h :
  first_accepted thr hits otu_id = None ->
  In h hits -> hit_otu h = otu_id -> below_threshold thr h = false.
Proof.
  unfold first_accepted. intros Hf Hin Heq.
  pose proof (find_none _ _ Hf h Hin) as Hb. simpl in Hb.
  rewrite Heq, String.eqb_refl in Hb. exact Hb.
Qed.

Lemma accepts_true seen_otus h :
  accepts thr seen_otus (hit_otu h) (hit_pi h) = true
  <-> below_threshold thr h = true /\ seen_otus !! hit_otu h = None.
Proof.
  unfold accepts, below_threshold. rewrite andb_true_iff, negb_true_iff.
  rewrite bool_decide_eq_false, <- eq_None_not_Some. reflexivity.
Qed.

Lemma select_keeps_inv seen_hits st h :
  selector_inv thr seen_hits st ->
  selector_inv thr (seen_hits ++ [h]) (select thr st h).
Proof.
  intros [Hbelow Hnodup Hseen Hfirst Hall]. unfold select.
  destruct (accepts thr (snd st) (hit_otu h) (hit_pi h)) eqn:Hacc.
  - apply accepts_true in Hacc as [Hb Hnone].
    assert (Hfresh : ~ In (hit_otu h) (map hit_otu (fst st))).
    { rewrite <- Hseen, Hnone. intros [? ?]; discriminate. }
    split; simpl.
    + apply Forall_app. split; [assumption | now constructor].
    + rewrite map_app. simpl. apply List.NoDup_app; [assumption | | ].
      * constructor; [simpl; tauto | constructor].
      * intros a Ha [<-|[]]. contradiction.
    + intros otu_id. rewrite map_app, in_app_iff, <- Hseen. simpl.
      destruct (decide (hit_otu h = otu_id)) as [<-|Hne].
      * rewrite lookup_insert_eq. split; [auto | eauto].
      * rewrite lookup_insert_ne by assumption. tauto.
    + intros h' [Hin|[<-|[]]]%in_app_iff.
      * apply first_accepted_app_Some. auto.
      * rewrite first_accepted_app_None.
        -- unfold first_accepted. simpl. now rewrite String.eqb_refl, Hb.
        -- destruct (first_accepted thr seen_hits (hit_otu h)) as [h0|] eqn:Hf;
             [|reflexivity].
           apply first_accepted_Some in Hf as (Hin & Heq & Hb0).
           rewrite <- Heq in Hfresh. exfalso. apply Hfresh. auto.
    + intros h' [Hin|[<-|[]]]%in_app_iff Hb'; rewrite map_app, in_app_iff.
      * left. auto.
      * right. simpl. auto.
  - split; try assumption.
    + intros h' Hin. apply first_accepted_app_Some. auto.
    + intros h' [Hin|[<-|[]]]%in_app_iff Hb'; [auto|].
      apply Hseen. destruct (snd st !! hit_otu h) eqn:Hl; [eauto|].
      assert (accepts thr (snd st) (hit_otu h) (hit_pi h) = true)
        by (apply accepts_true; auto).
      congruence.
Qed.

Lemma select_loop_inv more seen_hits st :
  selector_inv thr seen_hits st ->
  selector_inv thr (seen_hits ++ more) (fold_left (select thr) more st).
Proof.
  revert seen_hits st. induction more as [|h more IH]; intros seen_hits st Hinv;
    simpl.
  - now rewrite app_nil_r.
  - replace (seen_hits ++ h :: more) with ((seen_hits ++ [h]) ++ more)
      by (rewrite <- app_assoc; reflexivity).
    apply IH, select_keeps_inv, Hinv.
Qed.

Lemma selected_inv hits :
  selector_inv thr hits (fold_left (select thr) hits ([], ∅)).
Proof. apply (select_loop_inv hits [] _ selector_inv_start). Qed.

End SelectorInvariant.

(** ** The top-N selector *)

Section SelectorTheorems.
Context `{Externals}.

Lemma selected_below_threshold thr hits (h : hit) :
  In h (fst (fold_left (select thr) hits ([], ∅))) ->
  (hit_pi h / 100 <= thr)%Q.
Proof.
  intros Hin. pose proof (inv_below _ _ _ (selected_inv thr hits)) as Hall.
  rewrite List.Forall_forall in Hall. apply Qle_bool_iff, (Hall h Hin).
Qed.

(** C1. Given a count [top_n >= 0], the selector returns at most [top_n]
    hits, and the percent identity of each returned hit, divided by 100, is
    at most the threshold. *)
Theorem top_n_bounded_and_below_threshold (blast_results_f : list string)
    (top_n : Z) (max_nt_similarity : Q) (res : list hit) :
  (0 <= top_n)%Z ->
  _get_top_n_blast_results blast_results_f top_n max_nt_similarity = Ok res ->
  (Z.of_nat (length res) <= top_n)%Z
  /\ Forall (fun h => (hit_pi h / 100 <= max_nt_similarity)%Q) res.
Proof.
  intros Hn Hrun. rewrite top_n_of_parsed in Hrun.
  apply rbind_Ok in Hrun as (hits & _ & Hres). injection Hres as <-.
  split; [now apply slice_to_length|].
  destruct (slice_to_firstn top_n
              (sorted hit_pi false
                 (fst (fold_left (select max_nt_similarity) hits ([], ∅)))))
    as [k ->].
  apply firstn_Forall, List.Forall_forall. intros h Hin.
  apply (selected_below_threshold _ hits).
  eapply Permutation_in; [apply sorted_Permutation | exact Hin].
Qed.

(** C2. The query identifiers of the returned hits are pairwise distinct,
    and the returned hits are in ascending order of percent identity. *)
Theorem top_n_distinct_and_ascending (blast_results_f : list string)
    (top_n : Z) (max_nt_similarity : Q) (res : list hit) :
  _get_top_n_blast_results blast_results_f top_n max_nt_similarity = Ok res ->
  List.NoDup (map hit_otu res)
  /\ StronglySorted (fun a b => (hit_pi a <= hit_pi b)%Q) res.
Proof.
  intros Hrun. rewrite top_n_of_parsed in Hrun.
  apply rbind_Ok in Hrun as (hits & _ & Hres). injection Hres as <-.
  destruct (slice_to_firstn top_n
              (sorted hit_pi false
                 (fst (fold_left (select max_nt_similarity) hits ([], ∅)))))
    as [k ->].
  split.
  - apply firstn_NoDup_map.
    eapply Permutation_NoDup.
    + apply Permutation_map. symmetry. apply sorted_Permutation.
    + apply (inv_nodup _ _ _ (selected_inv max_nt_similarity hits)).
  - apply firstn_StronglySorted.
    apply (sorted_StronglySorted hit_pi false).
Qed.

Lemma selector_example (lines : list string) :
  parsed_hits lines
  = Ok [("OTU1", "gi|1", 5.0%Q); ("OTU2", "gi|2", 2.0%Q);
        ("OTU1", "gi|3", 1.0%Q)] ->
  _get_top_n_blast_results lines 2 0.1
  = Ok [("OTU2", "gi|2", 2.0%Q); ("OTU1", "gi|1", 5.0%Q)].
Proof. intros Hp. rewrite top_n_of_parsed, Hp. vm_compute. reflexivity. Qed.

(** C3, as amended. When the lines parse, the selector returns; a returned
    hit is the first hit of its query identifier, in input order, that passes
    the similarity test, whatever the percent identities of the other hits of
    that identifier; when fewer than [top_n] hits are returned, every
    identifier with a passing hit is among them; and the hits of the example
    give the result of the example. *)
Theorem first_accepted_occurrence_wins (blast_results_f : list string)
    (top_n : Z) (max_nt_similarity : Q) (hits : list hit) :
  parsed_hits blast_results_f = Ok hits ->
  exists res,
    _get_top_n_blast_results blast_results_f top_n max_nt_similarity = Ok res
    /\ (forall h, In h res ->
          first_accepted max_nt_similarity hits (hit_otu h) = Some h)
    /\ ((Z.of_nat (length res) < top_n)%Z ->
        forall h, In h hits -> below_threshold max_nt_similarity h = true ->
                  exists h', In h' res /\ hit_otu h' = hit_otu h)
    /\ (hits = [("OTU1", "gi|1", 5.0%Q); ("OTU2", "gi|2", 2.0%Q);
                ("OTU1", "gi|3", 1.0%Q)] ->
        _get_top_n_blast_results blast_results_f 2 0.1
        = Ok [("OTU2", "gi|2", 2.0%Q); ("OTU1", "gi|1", 5.0%Q)]).
Proof.
  intros Hp. rewrite top_n_of_parsed, Hp. simpl.
  pose proof (selected_inv max_nt_similarity hits) as Hinv.
  set (kept := fst (fold_left (select max_nt_similarity) hits ([], ∅))) in *.
  eexists. split; [reflexivity|]. split; [|split].
  - intros h Hin. apply (inv_first _ _ _ Hinv).
    destruct (slice_to_firstn top_n (sorted hit_pi false kept)) as [k Hk].
    rewrite Hk in Hin. apply firstn_In in Hin.
    eapply Permutation_in; [apply sorted_Permutation | exact Hin].
  - intros Hlt h Hin Hb. rewrite (slice_to_all _ _ Hlt).
    apply (inv_all _ _ _ Hinv) in Hin; [|assumption].
    apply in_map_iff in Hin as (h' & Heq & Hin'). exists h'. split; [|assumption].
    eapply Permutation_in; [symmetry; apply sorted_Permutation | exact Hin'].
  - intros ->. now apply selector_example.
Qed.

Lemma unpack3_short (fields : list string) :
  length fields < 3 -> exists msg, unpack3 fields = Raise (ValueError msg).
Proof.
  destruct fields as [|a [|b [|c rest]]]; simpl; intros Hlen;
    try (eexists; reflexivity); lia.
Qed.

Lemma parse_line_malformed (line : string) :
  skipped line = false -> malformed line = true ->
  exists msg, parse_line line = Raise (ValueError msg).
Proof.
  unfold malformed, parse_line. intros Hs Hm. rewrite Hs in Hm. simpl in Hm.
  unfold_bind.
  destruct (split tab (strip line)) as [|a [|b [|c rest]]];
    try (simpl; eexists; reflexivity).
  simpl. unfold float. destruct (float_of_string c); [discriminate|].
  eexists. reflexivity.
Qed.

Lemma parse_line_well_formed (line : string) :
  malformed line = false -> skipped line = false ->
  exists h, parse_line line = Ok h.
Proof.
  unfold malformed, parse_line. intros Hm Hs. rewrite Hs in Hm. simpl in Hm.
  unfold_bind.
  destruct (split tab (strip line)) as [|a [|b [|c rest]]]; try discriminate.
  simpl. unfold float. destruct (float_of_string c); [|discriminate].
  eexists. reflexivity.
Qed.

Lemma parse_line_error (line : string) (e : exn) :
  parse_line line = Raise e -> exists msg, e = ValueError msg.
Proof.
  unfold parse_line, unpack3, float. unfold_bind.
  destruct (split tab (strip line)) as [|a [|b [|c rest]]]; simpl;
    try (intros [= <-]; eexists; reflexivity).
  destruct (float_of_string c); simpl; [discriminate|].
  intros [= <-]. eexists. reflexivity.
Qed.

Lemma parsed_hits_error (lines : list string) (e : exn) :
  parsed_hits lines = Raise e -> exists msg, e = ValueError msg.
Proof.
  induction lines as [|line lines IH]; simpl; [discriminate|].
  destruct (skipped line); [assumption|]. unfold_bind.
  destruct (parse_line line) as [h|e'] eqn:Hl; simpl.
  - destruct (parsed_hits lines); simpl; [discriminate|].
    intros [= <-]. now apply IH.
  - intros [= <-]. eapply parse_line_error, Hl.
Qed.

Lemma parsed_hits_skip (before after : list string) (line : string) :
  skipped line = true ->
  parsed_hits (before ++ line :: after) = parsed_hits (before ++ after).
Proof.
  intros Hs. induction before as [|l before IH]; simpl.
  - now rewrite Hs.
  - now rewrite IH.
Qed.

Lemma parsed_hits_malformed (before after : list string) (line : string) :
  malformed line = true ->
  exists msg, parsed_hits (before ++ line :: after) = Raise (ValueError msg).
Proof.
  intros Hm.
  assert (Hall : exists e, parsed_hits (before ++ line :: after) = Raise e).
  { induction before as [|l before [e IH]]; simpl.
    - assert (Hs : skipped line = false).
      { unfold malformed in Hm. apply andb_true_iff in Hm as [Hs _].
        now apply negb_true_iff in Hs. }
      rewrite Hs. destruct (parse_line_malformed line Hs Hm) as [msg ->].
      eexists. reflexivity.
    - rewrite IH. destruct (skipped l); [eauto|]. unfold_bind.
      destruct (parse_line l); simpl; eauto. }
  destruct Hall as [e He]. destruct (parsed_hits_error _ _ He) as [msg ->].
  eauto.
Qed.

Lemma parsed_hits_well_formed (lines : list string) :
  Forall (fun line => malformed line = false) lines ->
  exists hits, parsed_hits lines = Ok hits.
Proof.
  induction 1 as [|line lines Hm _ [hits IH]]; simpl; [eauto|].
  destruct (skipped line) eqn:Hs; [eauto|].
  destruct (parse_line_well_formed line Hm Hs) as [h ->].
  rewrite IH. unfold_bind. simpl. eauto.
Qed.

(** C6, as amended. A blank line or a line starting with [#] is passed over
    without a trace; any other line with fewer than three tab-separated
    fields, or with a third field that is no number, makes the selector
    raise [ValueError] instead of returning; and when no line is malformed
    the selector returns. *)
Theorem malformed_line_raises (before after : list string) (line : string)
    (top_n : Z) (max_nt_similarity : Q) :
  (skipped line = true ->
   _get_top_n_blast_results (before ++ line :: after) top_n max_nt_similarity
   = _get_top_n_blast_results (before ++ after) top_n max_nt_similarity)
  /\ (malformed line = true ->
      exists msg,
        _get_top_n_blast_results (before ++ line :: after) top_n
          max_nt_similarity
        = Raise (ValueError msg))
  /\ (Forall (fun l => malformed l = false) (before ++ line :: after) ->
      exists res,
        _get_top_n_blast_results (before ++ line :: after) top_n
          max_nt_similarity
        = Ok res).
Proof.
  rewrite !top_n_of_parsed. split; [|split].
  - intros Hs. now rewrite parsed_hits_skip.
  - intros Hm. destruct (parsed_hits_malformed before after line Hm) as [msg ->].
    eauto.
  - intros Hall. destruct (parsed_hits_well_formed _ Hall) as [hits ->].
    simpl. eauto.
Qed.

End SelectorTheorems.

(** The selector on the sample BLAST output. *)
Lemma top_n_bounded_and_below_threshold_witness :
  (Z.of_nat (length [("OTU2", "gi|2", 2.0%Q); ("OTU1", "gi|1", 5.0%Q)]) <= 2)%Z
  /\ Forall (fun h => (hit_pi h / 100 <= 0.1)%Q)
       [("OTU2", "gi|2", 2.0%Q); ("OTU1", "gi|1", 5.0%Q)].
Proof.
  apply (@top_n_bounded_and_below_threshold Sample.externals
           Sample.blast_output 2 0.1).
  - lia.
  - vm_compute. reflexivity.
Defined.

Lemma top_n_distinct_and_ascending_witness :
  List.NoDup (map hit_otu [("OTU2", "gi|2", 2.0%Q); ("OTU1", "gi|1", 5.0%Q)])
  /\ StronglySorted (fun a b => (hit_pi a <= hit_pi b)%Q)
       [("OTU2", "gi|2", 2.0%Q); ("OTU1", "gi|1", 5.0%Q)].
Proof.
  apply (@top_n_distinct_and_ascending Sample.externals
           Sample.blast_output 2 0.1).
  vm_compute. reflexivity.
Defined.

(** C3, the counterexample. The first hit of OTU1 is at 50%, over the
    threshold of 10%, and the later one at 1%: the selector returns the later
    one. *)
Lemma later_occurrence_returned :
  @parsed_hits Sample.externals Sample.blast_output_late
  = Ok [("OTU1", "gi|1", 50.0%Q); ("OTU1", "gi|3", 1.0%Q)]
  /\ @_get_top_n_blast_results Sample.externals Sample.blast_output_late 2 0.1
     = Ok [("OTU1", "gi|3", 1.0%Q)].
Proof. split; vm_compute; reflexivity. Qed.

Lemma first_accepted_occurrence_wins_witness :
  @_get_top_n_blast_results Sample.externals Sample.blast_output 2 0.1
  = Ok [("OTU2", "gi|2", 2.0%Q); ("OTU1", "gi|1", 5.0%Q)].
Proof.
  destruct (@first_accepted_occurrence_wins Sample.externals
              Sample.blast_output 2 0.1
              [("OTU1", "gi|1", 5.0%Q); ("OTU2", "gi|2", 2.0%Q);
               ("OTU1", "gi|3", 1.0%Q)])
    as (res & _ & _ & _ & Hexample).
  - vm_compute. reflexivity.
  - apply Hexample. reflexivity.
Defined.

(** C6, the counterexample. A line with two fields and a line whose third
    field is no number are not passed over: the selector raises. *)
Lemma malformed_line_not_skipped :
  @_get_top_n_blast_results Sample.externals Sample.blast_output_short 2 0.1
  = Raise (ValueError "need more than 2 values to unpack")
  /\ @_get_top_n_blast_results Sample.externals Sample.blast_output_text 2 0.1
     = Raise (ValueError "could not convert string to float: high").
Proof. split; vm_compute; reflexivity. Qed.

Lemma malformed_line_raises_witness :
  @_get_top_n_blast_results Sample.externals Sample.blast_output 2 0.1
  = @_get_top_n_blast_results Sample.externals (tl Sample.blast_output) 2 0.1
  /\ (exists msg,
        @_get_top_n_blast_results Sample.externals Sample.blast_output_short
          2 0.1
        = Raise (ValueError msg))
  /\ (exists res,
        @_get_top_n_blast_results Sample.externals Sample.blast_output 2 0.1
        = Ok res).
Proof.
  split; [|split].
  - apply (@malformed_line_raises Sample.externals []
             (tl Sample.blast_output) (hd "" Sample.blast_output) 2 0.1).
    vm_compute. reflexivity.
  - apply (@malformed_line_raises Sample.externals []
             (tl Sample.blast_output_short) (hd "" Sample.blast_output_short)
             2 0.1).
    vm_compute. reflexivity.
  - apply (@malformed_line_raises Sample.externals []
             (tl Sample.blast_output) (hd "" Sample.blast_output) 2 0.1).
    repeat constructor.
Defined.

(** ** The color cycle *)

Section CycleFacts.
Context `{Externals}.

Lemma with_iters_same (w : world) : with_iters (iters w) w = w.
Proof. now destruct w. Qed.

Lemma bind_Ok {A B} (m : M A) (k : A -> M B) (w w' : world) (a : A) :
  m w = (Ok a, w') -> bind m k w = k a w'.
Proof. intros Hm. unfold bind. now rewrite Hm. Qed.

Lemma bind_Raise {A B} (m : M A) (k : A -> M B) (w w' : world) (e : exn) :
  m w = (Raise e, w') -> bind m k w = (Raise e, w').
Proof. intros Hm. unfold bind. now rewrite Hm. Qed.

Lemma next_returns (it : nat) (c : cycle_iter) (x : string) (w : world) :
  iters w !! it = Some c ->
  nth_error (cyc_items c) (cyc_pos c) = Some x ->
  next it w
  = (Ok x,
     with_iters (<[it := {| cyc_items := cyc_items c;
                            cyc_pos := S (cyc_pos c) mod length (cyc_items c) |}]>
                   (iters w)) w).
Proof. intros Hit Hx. unfold next. now rewrite Hit, Hx. Qed.

Lemma palette_nth (i : nat) :
  palette <> [] -> nth_error palette (i mod length palette) = Some (color_at i).
Proof.
  intros Hne. apply nth_error_nth'. apply Nat.mod_upper_bound.
  destruct palette; [contradiction | discriminate].
Qed.

(** The comprehension that draws one color per group, run on an iterator
    over the palette that stands at position [i mod length palette]. *)
Lemma color_loop (it : nat) (groups : list (Q * string)) :
  palette <> [] ->
  forall (i : nat) (w : world),
    iters w !! it
    = Some {| cyc_items := palette; cyc_pos := i mod length palette |} ->
    map_M (fun '(val, label) =>
             bind (next it) (fun color => ret (val, label, color)))
          groups w
    = (Ok (colored_from i groups),
       with_iters (<[it := {| cyc_items := palette;
                              cyc_pos := (i + length groups) mod length palette |}]>
                     (iters w)) w).
Proof.
  intros Hne. induction groups as [|[val label] groups IH]; intros i w Hit.
  - simpl. rewrite Nat.add_0_r, list_insert_id by assumption.
    now rewrite with_iters_same.
  - assert (Hlt : it < length (iters w)) by (eapply lookup_lt_Some, Hit).
    cbn [map_M colored_from length]. unfold_bind.
    erewrite bind_Ok; cycle 1.
    { erewrite bind_Ok; [reflexivity|].
      apply (next_returns it _ (color_at i) w Hit). now apply palette_nth. }
    erewrite bind_Ok; cycle 1.
    { apply (IH (S i)). simpl. rewrite list_lookup_insert_eq by assumption.
      f_equal. f_equal.
      rewrite <- (Nat.add_1_r (i mod _)), Nat.Div0.add_mod_idemp_l.
      now rewrite Nat.add_1_r. }
    unfold ret. simpl. rewrite list_insert_insert_eq.
    now rewrite Nat.add_succ_r.
Qed.

(** With no colors at all the first draw fails. *)
Lemma color_loop_empty (it : nat) (groups : list (Q * string)) (w : world) :
  palette = [] ->
  iters w !! it = Some {| cyc_items := palette; cyc_pos := 0 |} ->
  map_M (fun '(val, label) =>
           bind (next it) (fun color => ret (val, label, color)))
        groups w
  = (match groups with [] => Ok [] | _ :: _ => Raise StopIteration end, w).
Proof.
  intros Hnil Hit. destruct groups as [|[val label] groups]; [reflexivity|].
  cbn [map_M]. unfold_bind.
  erewrite bind_Raise; [reflexivity|].
  erewrite bind_Raise; [reflexivity|].
  unfold next. rewrite Hit, Hnil. reflexivity.
Qed.

End CycleFacts.

(** ** The abundance summarizer, step by step *)

Section SummarizerFacts.
Context `{Externals}.

Lemma cycle_allocates (items : list string) (w : world) :
  cycle items w
  = (Ok (length (iters w)),
     with_iters (iters w ++ [{| cyc_items := items; cyc_pos := 0 |}]) w).
Proof. reflexivity. Qed.

(** The comprehension that divides each kept count by the total. *)
Lemma normalise_all (total : Q) (kept : list group) :
  map_result (fun '(val, label, color) =>
                rbind (py_div val total) (fun val => Ok (val, label, color)))
             kept
  = match kept with
    | [] => Ok []
    | _ :: _ =>
        if Qeq_bool total 0 then Raise ZeroDivisionError
        else Ok (map (normalised total) kept)
    end.
Proof.
  destruct kept as [|g0 kept0]; [reflexivity|].
  unfold_bind. unfold py_div. destruct (Qeq_bool total 0) eqn:Hz.
  - destruct g0 as [[val label] color]. reflexivity.
  - generalize (g0 :: kept0). intros kept.
    induction kept as [|[[val label] color] kept IH]; [reflexivity|].
    cbn [map_result map]. rewrite IH. reflexivity.
Qed.

Lemma summary_of_normalised (kept : list group) :
  rbind (map_result
           (fun '(val, label, color) =>
              rbind (py_div val (sum (map group_val kept)))
                    (fun val => Ok (val, label, color))) kept)
        (fun result =>
           Ok (map group_val result,
               map (fun e => format_label (group_label e) (group_val e)) result,
               map group_color result))
  = summary_of kept.
Proof.
  rewrite normalise_all. unfold summary_of. destruct kept as [|g0 kept0];
    [reflexivity|].
  destruct (Qeq_bool _ 0); [reflexivity|]. simpl rbind. rewrite !map_map.
  reflexivity.
Qed.

(** The last two statements of the summarizer. *)
Lemma summary_run (kept : list group) (w : world) :
  bind (lift (map_result
                (fun '(val, label, color) =>
                   rbind (py_div val (sum (map group_val kept)))
                         (fun val => Ok (val, label, color))) kept))
       (fun result =>
          ret (map group_val result,
               map (fun e => format_label (group_label e) (group_val e)) result,
               map group_color result)) w
  = (summary_of kept, w).
Proof.
  rewrite <- summary_of_normalised. unfold bind, lift, ret, rbind.
  match goal with
  | |- context [map_result ?f kept] => now destruct (map_result f kept)
  end.
Qed.

Lemma slice_to_nil {A} (n : Z) : slice_to n (@nil A) = [].
Proof. unfold slice_to. destruct (0 <=? n)%Z; apply firstn_nil. Qed.

(** The whole call: its outcome is [pie_chart_result], and the store gains
    one iterator unless the lengths differ. *)
Lemma pie_chart_run (labels : list string) (data : list Q) (max_count : Z)
    (w : world) :
  _format_pie_chart_data labels data max_count w
  = (pie_chart_result labels data max_count,
     if (length labels =? length data)%nat
     then with_iters (iters w ++ [spent_cycle data labels]) w
     else w).
Proof.
  unfold _format_pie_chart_data, pie_chart_result, spent_cycle.
  destruct (length labels =? length data)%nat; [|reflexivity].
  cbn [negb]. unfold_bind.
  erewrite bind_Ok by apply cycle_allocates.
  assert (Hit : forall c : cycle_iter,
             iters (with_iters (iters w ++ [c]) w) !! length (iters w) = Some c).
  { intros c. simpl. apply list_lookup_middle. reflexivity. }
  destruct (decide (palette = [])) as [Hnil|Hne].
  - destruct (zip data labels) as [|g groups] eqn:Hzip.
    + erewrite bind_Ok by reflexivity. rewrite Hnil.
      unfold kept_groups. rewrite Hzip. cbn. rewrite slice_to_nil. reflexivity.
    + erewrite bind_Raise;
        [|apply (color_loop_empty _ (g :: groups)); [assumption | apply Hit]].
      now rewrite Hnil.
  - erewrite bind_Ok; cycle 1.
    { apply color_loop; [assumption|].
      rewrite Nat.Div0.mod_0_l. apply Hit. }
    cbv beta.
    change (slice_to max_count
              (sorted group_val true (colored_from 0 (zip data labels))))
      with (kept_groups data labels max_count).
    rewrite summary_run. unfold with_iters. cbn [iters dirs files trace].
    rewrite insert_app_r_alt by reflexivity.
    rewrite Nat.sub_diag. cbn [insert list_insert Nat.add].
    destruct palette as [|c cs]; [contradiction|].
    destruct (zip data labels); reflexivity.
Qed.

Lemma pie_chart_fst (labels : list string) (data : list Q) (max_count : Z)
    (w : world) :
  fst (_format_pie_chart_data labels data max_count w)
  = pie_chart_result labels data max_count.
Proof. now rewrite pie_chart_run. Qed.

Lemma pie_chart_result_kept (labels : list string) (data : list Q)
    (max_count : Z) :
  palette <> [] -> length labels = length data ->
  pie_chart_result labels data max_count
  = summary_of (kept_groups data labels max_count).
Proof.
  intros Hne Hlen. unfold pie_chart_result. rewrite Hlen, Nat.eqb_refl.
  simpl. destruct palette; [contradiction|]. now destruct (zip data labels).
Qed.

End SummarizerFacts.

(** ** Sums of rationals *)

Lemma fold_left_Qplus_compat (l : list Q) (a b : Q) :
  (a == b)%Q -> (fold_left Qplus l a == fold_left Qplus l b)%Q.
Proof.
  revert a b. induction l as [|x l IH]; intros a b Hab; simpl; [assumption|].
  apply IH. now rewrite Hab.
Qed.

Lemma fold_left_Qplus_div (t : Q) (l : list Q) (a : Q) :
  (fold_left Qplus (map (fun v => v / t) l) (a / t)
   == fold_left Qplus l a / t)%Q.
Proof.
  revert a. induction l as [|x l IH]; intros a; simpl; [reflexivity|].
  rewrite <- IH. apply fold_left_Qplus_compat. unfold Qdiv. ring.
Qed.

(** Counts divided by their own non-zero total add up to one. *)
Lemma sum_normalised (vals : list Q) :
  ~ (sum vals == 0)%Q -> (sum (map (fun v => v / sum vals) vals) == 1)%Q.
Proof.
  intros Hnz. unfold sum at 1.
  rewrite (fold_left_Qplus_compat _ 0 (0 / sum vals)) by (unfold Qdiv; ring).
  rewrite fold_left_Qplus_div. fold (sum vals). now field.
Qed.

(** ** The groups the summarizer keeps *)

Lemma StronglySorted_app_order {A} (R : A -> A -> Prop) (l1 l2 : list A) :
  StronglySorted R (l1 ++ l2) ->
  forall x y, In x l1 -> In y l2 -> R x y.
Proof.
  induction l1 as [|a l1 IH]; simpl; intros Hs x y Hx Hy; [contradiction|].
  apply StronglySorted_inv in Hs as [Hs Ha]. destruct Hx as [<-|Hx].
  - rewrite List.Forall_forall in Ha. apply Ha, in_or_app. now right.
  - now apply IH.
Qed.

Section KeptGroups.
Context `{Externals}.

Lemma colored_from_groups (i : nat) (groups : list (Q * string)) :
  map (fun g => (group_val g, group_label g)) (colored_from i groups) = groups.
Proof.
  revert i. induction groups as [|[val label] groups IH]; intros i; simpl;
    [reflexivity|].
  now rewrite IH.
Qed.

Lemma colored_from_position (groups : list (Q * string)) (i : nat) (g : group) :
  In g (colored_from i groups) ->
  exists j, nth_error groups j = Some (group_val g, group_label g)
            /\ group_color g = color_at (i + j).
Proof.
  revert i. induction groups as [|[val label] groups IH]; intros i; simpl;
    [contradiction|].
  intros [<-|Hin].
  - exists 0. rewrite Nat.add_0_r. now split.
  - destruct (IH (S i) Hin) as (j & Hj & Hc). exists (S j).
    rewrite Nat.add_succ_r. now split.
Qed.

Lemma zip_nth_error (data : list Q) (labels : list string) (j : nat)
    (val : Q) (label : string) :
  nth_error (zip data labels) j = Some (val, label) ->
  j < length data /\ nth j data 0%Q = val /\ nth j labels "" = label.
Proof.
  revert labels j. induction data as [|v data IH]; intros [|l labels] [|j];
    simpl; try discriminate.
  - intros [= <- <-]. repeat split. lia.
  - intros Hj. destruct (IH labels j Hj) as (Hlt & Hv & Hl).
    repeat split; [lia | assumption | assumption].
Qed.

Lemma kept_groups_prefix (data : list Q) (labels : list string) (max_count : Z) :
  exists dropped,
    kept_groups data labels max_count ++ dropped
    = sorted group_val true (colored_from 0 (zip data labels)).
Proof.
  unfold kept_groups.
  destruct (slice_to_firstn max_count
              (sorted group_val true (colored_from 0 (zip data labels))))
    as [k ->].
  eexists. apply firstn_skipn.
Qed.

Lemma kept_groups_In (data : list Q) (labels : list string) (max_count : Z)
    (g : group) :
  In g (kept_groups data labels max_count) ->
  In g (colored_from 0 (zip data labels)).
Proof.
  intros Hin. destruct (kept_groups_prefix data labels max_count) as [dropped Hd].
  eapply Permutation_in; [apply (sorted_Permutation group_val true)|].
  rewrite <- Hd. apply in_or_app. now left.
Qed.

Lemma zip_length (data : list Q) (labels : list string) :
  length labels = length data -> length (zip data labels) = length data.
Proof.
  revert labels. induction data as [|v data IH]; intros [|l labels]; simpl;
    try discriminate; [reflexivity|].
  intros [= Hlen]. now rewrite IH.
Qed.

(** The colored groups, read off the input by position. *)
Lemma colored_from_seq (data : list Q) (labels : list string) (i : nat) :
  length labels = length data ->
  colored_from i (zip data labels)
  = map (fun j => (nth j data 0%Q, nth j labels "", color_at (i + j)))
        (seq 0 (length data)).
Proof.
  revert labels i. induction data as [|v data IH]; intros [|l labels] i; simpl;
    try discriminate; [reflexivity|].
  intros [= Hlen]. rewrite Nat.add_0_r. f_equal.
  rewrite (IH labels (S i) Hlen), <- seq_shift, map_map.
  apply map_ext. intros j. now rewrite Nat.add_succ_r.
Qed.

(** Each kept group sits at a position of the input of its own and has the
    color of that position. *)
Lemma kept_groups_positions (data : list Q) (labels : list string)
    (max_count : Z) :
  length labels = length data ->
  exists positions : list nat,
    kept_groups data labels max_count
    = map (fun i => (nth i data 0%Q, nth i labels "", color_at i)) positions
    /\ Forall (fun i => i < length data) positions
    /\ List.NoDup positions.
Proof.
  intros Hlen. unfold kept_groups.
  rewrite (colored_from_seq data labels 0 Hlen), sorted_map, slice_to_map.
  cbn [Nat.add].
  set (order := sorted (fun i => group_val (nth i data 0%Q, nth i labels "",
                                             color_at i))
                       true (seq 0 (length data))).
  exists (slice_to max_count order). split; [reflexivity|].
  assert (Hperm : Permutation order (seq 0 (length data)))
    by apply sorted_Permutation.
  destruct (slice_to_firstn max_count order) as [k ->]. split.
  - apply firstn_Forall, List.Forall_forall. intros i Hi.
    apply (Permutation_in _ Hperm), in_seq in Hi. lia.
  - rewrite <- (map_id (firstn k order)). apply firstn_NoDup_map.
    rewrite map_id. eapply Permutation_NoDup; [symmetry; exact Hperm|].
    apply seq_NoDup.
Qed.

Lemma kept_groups_length (data : list Q) (labels : list string)
    (max_count : Z) :
  length labels = length data -> (0 <= max_count)%Z ->
  length (kept_groups data labels max_count)
  = Nat.min (Z.to_nat max_count) (length data).
Proof.
  intros Hlen Hmax. unfold kept_groups.
  rewrite slice_to_length_min by assumption. f_equal.
  rewrite (Permutation_length (sorted_Permutation group_val true _)).
  rewrite <- (length_map (fun g => (group_val g, group_label g))).
  now rewrite colored_from_groups, zip_length.
Qed.

Lemma summary_of_Ok (kept : list group) (pd : plot_data) :
  summary_of kept = Ok pd ->
  pd = (map (fun g => (group_val g / sum (map group_val kept))%Q) kept,
        map (fun g => format_label (group_label g)
                        (group_val g / sum (map group_val kept))) kept,
        map group_color kept).
Proof.
  unfold summary_of. destruct kept as [|g kept]; [now intros [= <-]|].
  destruct (Qeq_bool _ 0); [discriminate | now intros [= <-]].
Qed.

Lemma summary_of_nonzero (kept : list group) :
  ~ (sum (map group_val kept) == 0)%Q ->
  summary_of kept
  = Ok (map (fun g => (group_val g / sum (map group_val kept))%Q) kept,
        map (fun g => format_label (group_label g)
                        (group_val g / sum (map group_val kept))) kept,
        map group_color kept).
Proof.
  intros Hnz. unfold summary_of. destruct kept as [|g kept];
    [reflexivity|].
  destruct (Qeq_bool _ 0) eqn:Hz; [|reflexivity].
  apply Qeq_bool_iff in Hz. contradiction.
Qed.


Lemma pie_chart_result_error (labels : list string) (data : list Q)
    (max_count : Z) (msg : string) :
  pie_chart_result labels data max_count = Raise (ValueError msg) ->
  length labels <> length data.
Proof.
  unfold pie_chart_result. destruct (Nat.eqb_spec (length labels) (length data))
    as [Heq|Hne]; [|now intros _].
  simpl. intros Hr. exfalso.
  assert (Hs : forall kept, summary_of kept <> Raise (ValueError msg)).
  { intros kept. unfold summary_of. destruct kept; [discriminate|].
    destruct (Qeq_bool _ 0); discriminate. }
  destruct palette; destruct (zip data labels);
    try discriminate; eapply Hs, Hr.
Qed.

End KeptGroups.

(** ** The abundance summarizer *)

Section SummarizerTheorems.
Context `{Externals}.

Lemma pie_chart_example (w : world) :
  palette <> [] ->
  fst (_format_pie_chart_data ["A"; "B"; "C"] [10; 30; 5]%Q 2 w)
  = Ok ([30 # 40; 10 # 40]%Q, ["B (75.00%)"; "A (25.00%)"],
        [color_at 1; color_at 0]).
Proof.
  intros Hne. rewrite pie_chart_fst, pie_chart_result_kept by easy.
  vm_compute. reflexivity.
Qed.

(** C4, as amended. With a palette that is not empty, labels and counts of
    equal length, a count [max_count >= 0] and kept counts whose sum is not
    zero, the summarizer returns; the kept groups are the first [max_count]
    of the groups in descending order of count, no group left out has a
    larger count than a kept one, each returned fraction is a kept count
    divided by the sum of the kept counts, the fractions add up to 1, and
    the three returned sequences have the same length, at most [max_count].
    Labels A, B, C with counts 10, 30, 5 and [max_count = 2] give the
    fractions 0.75 and 0.25 with the labels "B (75.00%)" and "A (25.00%)". *)
Theorem pie_chart_fractions (labels : list string) (data : list Q)
    (max_count : Z) (w : world) :
  palette <> [] ->
  (length labels = length data -> (0 <= max_count)%Z ->
   ~ (kept_total data labels max_count == 0)%Q ->
   exists fractions labels' colors w',
     _format_pie_chart_data labels data max_count w
     = (Ok (fractions, labels', colors), w')
     /\ fractions
        = map (fun g => (group_val g / kept_total data labels max_count)%Q)
              (kept_groups data labels max_count)
     /\ labels'
        = map (fun g => format_label (group_label g)
                          (group_val g / kept_total data labels max_count))
              (kept_groups data labels max_count)
     /\ (exists dropped,
           Permutation
             (map (fun g => (group_val g, group_label g))
                  (kept_groups data labels max_count ++ dropped))
             (zip data labels)
           /\ forall k d,
               In k (kept_groups data labels max_count) -> In d dropped ->
               (group_val d <= group_val k)%Q)
     /\ StronglySorted (fun a b => (group_val b <= group_val a)%Q)
          (kept_groups data labels max_count)
     /\ length fractions = Nat.min (Z.to_nat max_count) (length data)
     /\ (Z.of_nat (length fractions) <= max_count)%Z
     /\ length labels' = length fractions
     /\ length colors = length fractions
     /\ (sum fractions == 1)%Q)
  /\ (exists fractions colors w',
        _format_pie_chart_data ["A"; "B"; "C"] [10; 30; 5]%Q 2 w
        = (Ok (fractions, ["B (75.00%)"; "A (25.00%)"], colors), w')
        /\ Forall2 Qeq fractions [0.75; 0.25]%Q).
Proof.
  intros Hne. split.
  - intros Hlen Hmax Hnz. unfold kept_total in *.
    set (kept := kept_groups data labels max_count) in *.
    exists (map (fun g => (group_val g / sum (map group_val kept))%Q) kept),
      (map (fun g => format_label (group_label g)
                       (group_val g / sum (map group_val kept))) kept),
      (map group_color kept).
    eexists. split; [|split; [reflexivity|split; [reflexivity|]]].
    { rewrite pie_chart_run, pie_chart_result_kept by assumption.
      fold kept. now rewrite summary_of_nonzero by assumption. }
    destruct (kept_groups_prefix data labels max_count) as [dropped Hd].
    fold kept in Hd.
    pose proof (sorted_StronglySorted group_val true
                  (colored_from 0 (zip data labels))) as Hsorted.
    rewrite <- Hd in Hsorted.
    split; [|split; [|split; [|split; [|split; [|split]]]]].
    + exists dropped. split.
      * rewrite Hd, (sorted_Permutation group_val true).
        now rewrite colored_from_groups.
      * intros k d Hk Hdrop.
        apply (StronglySorted_app_order _ _ _ Hsorted k d Hk Hdrop).
    + unfold kept, kept_groups.
      destruct (slice_to_firstn max_count
                  (sorted group_val true (colored_from 0 (zip data labels))))
        as [n ->].
      apply firstn_StronglySorted.
      apply (sorted_StronglySorted group_val true).
    + rewrite length_map. now apply kept_groups_length.
    + rewrite length_map. now apply slice_to_length.
    + now rewrite !length_map.
    + now rewrite !length_map.
    + rewrite <- (map_map group_val (fun v => (v / sum (map group_val kept))%Q)).
      now apply sum_normalised.
  - exists [30 # 40; 10 # 40]%Q, [color_at 1; color_at 0].
    eexists. split.
    + rewrite (surjective_pairing (_format_pie_chart_data _ _ _ _)).
      rewrite pie_chart_example by assumption. reflexivity.
    + repeat constructor.
Qed.

(** C5. The summarizer raises a [ValueError] exactly when the labels and the
    counts differ in length, and then with the message of the source and
    before anything else is done. *)
Theorem pie_chart_value_error_iff (labels : list string) (data : list Q)
    (max_count : Z) (w : world) :
  ((exists msg,
      fst (_format_pie_chart_data labels data max_count w)
      = Raise (ValueError msg))
   <-> length labels <> length data)
  /\ (length labels <> length data ->
      _format_pie_chart_data labels data max_count w
      = (Raise (ValueError
                  "The number of labels does not match the number of counts."),
         w)).
Proof.
  split; [split|].
  - intros [msg Hr]. rewrite pie_chart_fst in Hr.
    eapply pie_chart_result_error, Hr.
  - intros Hne. eexists. rewrite pie_chart_fst. unfold pie_chart_result.
    apply Nat.eqb_neq in Hne. now rewrite Hne.
  - intros Hne. rewrite pie_chart_run. unfold pie_chart_result.
    apply Nat.eqb_neq in Hne. now rewrite Hne.
Qed.


(** C10. The outcome of the summarizer does not depend on the world it runs
    in, so a second call with the same arguments has the outcome of the
    first; a call adds one iterator to the store and leaves the iterators,
    directories, files and effects that were there as they were; and the
    color of each returned group is the palette color at the group's position
    in the input, counted from the first color and wrapping around, whatever
    the group's rank after sorting, no position being used twice. *)
Theorem pie_chart_fresh_cycle (labels : list string) (data : list Q)
    (max_count : Z) (w1 w2 : world) :
  fst (_format_pie_chart_data labels data max_count w1)
  = fst (_format_pie_chart_data labels data max_count w2)
  /\ fst (_format_pie_chart_data labels data max_count
            (snd (_format_pie_chart_data labels data max_count w1)))
     = fst (_format_pie_chart_data labels data max_count w1)
  /\ (firstn (length (iters w1))
        (iters (snd (_format_pie_chart_data labels data max_count w1)))
      = iters w1
      /\ dirs (snd (_format_pie_chart_data labels data max_count w1)) = dirs w1
      /\ files (snd (_format_pie_chart_data labels data max_count w1))
         = files w1
      /\ trace (snd (_format_pie_chart_data labels data max_count w1))
         = trace w1)
  /\ (forall fractions labels' colors,
        fst (_format_pie_chart_data labels data max_count w1)
        = Ok (fractions, labels', colors) ->
        exists (positions : list nat) (total : Q),
          Forall (fun i => i < length data) positions
          /\ List.NoDup positions
          /\ fractions = map (fun i => (nth i data 0 / total)%Q) positions
          /\ labels'
             = map (fun i => format_label (nth i labels "")
                               (nth i data 0 / total)%Q) positions
          /\ colors
             = map (fun i => nth (i mod length palette) palette "") positions).
Proof.
  rewrite !pie_chart_fst. split; [reflexivity|]. split; [reflexivity|]. split.
  - rewrite pie_chart_run. destruct (length labels =? length data)%nat.
    + simpl. rewrite firstn_app, Nat.sub_diag, firstn_all.
      simpl. rewrite app_nil_r. auto.
    + rewrite firstn_all. auto.
  - intros fractions labels' colors Hr. unfold pie_chart_result in Hr.
    destruct (Nat.eqb_spec (length labels) (length data)) as [Hlen|Hne];
      [|discriminate].
    cbn [negb] in Hr.
    assert (Hs : summary_of (kept_groups data labels max_count)
                 = Ok (fractions, labels', colors)).
    { destruct palette; destruct (zip data labels);
        try discriminate; exact Hr. }
    apply summary_of_Ok in Hs. injection Hs as -> -> ->.
    destruct (kept_groups_positions data labels max_count Hlen)
      as (positions & Hk & Hp & Hnd).
    exists positions, (kept_total data labels max_count).
    split; [assumption|]. split; [assumption|]. unfold kept_total.
    set (total := sum (map group_val (kept_groups data labels max_count))).
    rewrite Hk, !map_map. auto.
Qed.

End SummarizerTheorems.

(** The summarizer on labels A, B, C with counts 10, 30, 5, two groups
    kept. *)
Lemma pie_chart_fractions_witness :
  exists fractions labels' colors w',
    @_format_pie_chart_data Sample.externals ["A"; "B"; "C"] [10; 30; 5]%Q 2
      Sample.empty_world
    = (Ok (fractions, labels', colors), w')
    /\ Forall2 Qeq fractions [0.75; 0.25]%Q
    /\ labels' = ["B (75.00%)"; "A (25.00%)"]
    /\ (Z.of_nat (length fractions) <= 2)%Z
    /\ (sum fractions == 1)%Q.
Proof.
  destruct (@pie_chart_fractions Sample.externals ["A"; "B"; "C"]
              [10; 30; 5]%Q 2 Sample.empty_world) as [Hkept _];
    [discriminate|].
  destruct Hkept
    as (fractions & labels' & colors & w' & Hrun & Hfr & Hlb & _ & _ & _
        & Hlen & _ & _ & Hsum).
  - reflexivity.
  - lia.
  - vm_compute. discriminate.
  - exists fractions, labels', colors, w'.
    split; [exact Hrun|]. split; [|split; [|split; assumption]].
    + rewrite Hfr. vm_compute. repeat constructor.
    + rewrite Hlb. vm_compute. reflexivity.
Defined.

(** C4, the counterexample. Two groups with count zero: equal lengths, and
    no fractions are returned. *)
Lemma zero_counts_not_normalised :
  fst (@_format_pie_chart_data Sample.externals ["A"; "B"] [0; 0]%Q 2
         Sample.empty_world)
  = Raise ZeroDivisionError.
Proof. vm_compute. reflexivity. Qed.

Lemma pie_chart_value_error_iff_witness :
  @_format_pie_chart_data Sample.externals ["A"] [0; 1]%Q 2 Sample.empty_world
  = (Raise (ValueError
              "The number of labels does not match the number of counts."),
     Sample.empty_world).
Proof.
  apply (@pie_chart_value_error_iff Sample.externals ["A"] [0; 1]%Q 2
           Sample.empty_world).
  simpl. lia.
Defined.



(** In a world where an iterator is one color on, the second of three input
    groups still gets the second color and the first the first. *)
Lemma pie_chart_fresh_cycle_witness :
  fst (@_format_pie_chart_data Sample.externals ["A"; "B"; "C"] [10; 30; 5]%Q
         2 Sample.used_world)
  = Ok ([30 # 40; 10 # 40]%Q, ["B (75.00%)"; "A (25.00%)"],
        ["#ff0000"; "#0000ff"])
  /\ exists (positions : list nat) (total : Q),
       Forall (fun i => i < 3) positions
       /\ List.NoDup positions
       /\ [30 # 40; 10 # 40]%Q
          = map (fun i => (nth i [10; 30; 5] 0 / total)%Q) positions
       /\ ["B (75.00%)"; "A (25.00%)"]
          = map (fun i => format_label (nth i ["A"; "B"; "C"] "")
                            (nth i [10; 30; 5] 0 / total)%Q) positions
       /\ ["#ff0000"; "#0000ff"]
          = map (fun i => nth (i mod 3) Sample.three_colors "") positions.
Proof.
  destruct (@pie_chart_fresh_cycle Sample.externals ["A"; "B"; "C"]
              [10; 30; 5]%Q 2 Sample.used_world Sample.empty_world)
    as (Hsame & _ & _ & Hcolors).
  split.
  - rewrite Hsame. vm_compute. reflexivity.
  - apply Hcolors. vm_compute. reflexivity.
Defined.

(** ** The report assembler *)

Lemma append_assoc (s1 s2 s3 : string) :
  (s1 +:+ s2) +:+ s3 = s1 +:+ (s2 +:+ s3).
Proof.
  induction s1 as [|c s1 IH]; [reflexivity|].
  change (String c ((s1 +:+ s2) +:+ s3) = String c (s1 +:+ (s2 +:+ s3))).
  now rewrite IH.
Qed.

Lemma append_empty_r (s : string) : s +:+ "" = s.
Proof.
  induction s as [|c s IH]; [reflexivity|].
  change (String c (s +:+ "") = String c s). now rewrite IH.
Qed.

Lemma bind_Ok_inv {A B} (m : M A) (k : A -> M B) (w w' : world) (b : B) :
  bind m k w = (Ok b, w') ->
  exists a w1, m w = (Ok a, w1) /\ k a w1 = (Ok b, w').
Proof.
  unfold bind. destruct (m w) as [[a|e] w1]; [eauto | discriminate].
Qed.

Lemma lift_Ok_inv {A} (r : result A) (w w' : world) (a : A) :
  lift r w = (Ok a, w') -> r = Ok a.
Proof. unfold lift. now intros [= -> _]. Qed.

Lemma newlines_append (s1 s2 : string) :
  newlines (s1 +:+ s2) = newlines s1 + newlines s2.
Proof.
  induction s1 as [|c s1 IH]; [reflexivity|].
  change (newlines (String c (s1 +:+ s2))
          = newlines (String c s1) + newlines s2).
  simpl. rewrite IH. lia.
Qed.

Lemma newlines_string_of_uint (d : Decimal.uint) :
  newlines (NilEmpty.string_of_uint d) = 0.
Proof. induction d; simpl; auto. Qed.

(** A number in decimal stays on its line. *)
Lemma newlines_str_of_int (n : Z) : newlines (str_of_int n) = 0.
Proof.
  unfold str_of_int, NilZero.string_of_int, NilZero.string_of_uint.
  destruct (Z.to_int n) as [d|d]; destruct d; simpl;
    try reflexivity; apply (newlines_string_of_uint d).
Qed.

Section ReportFacts.
Context `{Externals}.
Variables (mw_seqs : gmap string string) (master_otu_table_ms : biom_table).
Variables (output_img_dir mapping_category : string).
Variables (suppress_taxonomic_output : bool) (num_categories_to_plot : Z).

(** One pass of the loop adds one row to each table and one FASTA record. *)
Lemma report_step_Ok (st st' : report) (mw_num : Z) (h : hit) (w w' : world) :
  report_step mw_seqs master_otu_table_ms output_img_dir mapping_category
    suppress_taxonomic_output num_categories_to_plot st (mw_num, h) w
  = (Ok st', w') ->
  exists e : entry,
    e_num e = (mw_num + 1)%Z /\ e_hit e = h
    /\ entry_of mw_seqs master_otu_table_ms suppress_taxonomic_output e
    /\ st' = (fst (fst (fst (fst st))) +:+ tsv_row suppress_taxonomic_output e,
              snd (fst (fst (fst st)))
                +:+ html_row output_img_dir mapping_category
                      suppress_taxonomic_output e,
              snd (fst (fst st)) +:+ fasta_record e,
              snd (fst st)
                ++ [path_join output_img_dir
                      ("abundance_by_" +:+ mapping_category +:+ "_"
                         +:+ hit_otu h +:+ ".png")],
              snd st
                ++ [path_join output_img_dir
                      ("abundance_by_" +:+ mapping_category +:+ "_"
                         +:+ hit_otu h +:+ ".p")]).
Proof.
  destruct st as [[[[tsv html] fasta] fps] dfps].
  destruct h as [[otu_id subject_id] percent_identity].
  unfold report_step. unfold_bind. intros Hrun.
  apply bind_Ok_inv in Hrun as (seq & w1 & Hseq & Hrun).
  apply lift_Ok_inv in Hseq.
  apply bind_Ok_inv in Hrun as (tax & w2 & Htax & Hrun).
  apply bind_Ok_inv in Hrun as (gb_id & w3 & Hgb & Hrun).
  apply lift_Ok_inv in Hgb.
  apply bind_Ok_inv in Hrun as (counts & w4 & _ & Hrun).
  apply bind_Ok_inv in Hrun as (pd & w5 & _ & Hrun).
  apply bind_Ok_inv in Hrun as (? & w6 & _ & Hrun).
  apply bind_Ok_inv in Hrun as (? & w7 & _ & Hrun).
  unfold ret in Hrun. injection Hrun as <- _.
  exists {| e_num := mw_num + 1; e_hit := (otu_id, subject_id, percent_identity);
            e_seq := seq; e_tax := tax; e_gb_id := gb_id; e_plot := pd |}.
  split; [reflexivity|]. split; [reflexivity|]. split.
  - unfold entry_of, lookup_seq in *. cbn [e_hit e_seq e_gb_id e_tax].
    unfold hit_otu, hit_subject. cbn [fst snd].
    split; [|split; [assumption|]].
    + destruct (mw_seqs !! otu_id); congruence.
    + intros ->. cbn [negb] in Htax. eapply lift_Ok_inv, Htax.
  - unfold tsv_row, html_row, fasta_record.
    cbn [e_num e_hit e_seq e_tax e_gb_id e_plot fst snd].
    unfold hit_otu, hit_pi. cbn [fst snd].
    destruct suppress_taxonomic_output; cbn [negb];
      rewrite ?append_assoc; reflexivity.
Qed.

Lemma newlines_tsv_header (suppress : bool) : newlines (tsv_header suppress) = 1.
Proof. now destruct suppress. Qed.

Lemma newlines_tsv_row (suppress : bool) (e : entry) :
  one_line_fields suppress e -> newlines (tsv_row suppress e) = 1.
Proof.
  intros (Hotu & Hseq & Htax & Hgb & Hpi). unfold tsv_row.
  rewrite !newlines_append, newlines_str_of_int, Hotu, Hseq, Hgb, Hpi.
  destruct suppress; cbn [negb]; rewrite ?newlines_append, ?Htax by reflexivity;
    reflexivity.
Qed.

Lemma newlines_tsv_rows (suppress : bool) (entries : list entry) :
  Forall (one_line_fields suppress) entries ->
  newlines (concat_str (map (tsv_row suppress) entries)) = length entries.
Proof.
  induction 1 as [|e entries He _ IH]; [reflexivity|].
  cbn [map concat_str fold_right length].
  fold (concat_str (map (tsv_row suppress) entries)).
  now rewrite newlines_append, newlines_tsv_row, IH.
Qed.

(** The loop over [enumerate(top_n_mw)], from any row number and any
    accumulators. *)
Lemma report_loop_Ok (hits : list hit) :
  forall (i : Z) (st st' : report) (w w' : world),
    fold_M (report_step mw_seqs master_otu_table_ms output_img_dir
              mapping_category suppress_taxonomic_output
              num_categories_to_plot)
           (enumerate_from i hits) st w
    = (Ok st', w') ->
    exists entries : list entry,
      map e_hit entries = hits
      /\ (forall k e, nth_error entries k = Some e ->
                      e_num e = (i + Z.of_nat k + 1)%Z)
      /\ Forall (entry_of mw_seqs master_otu_table_ms
                   suppress_taxonomic_output) entries
      /\ fst (fst (fst (fst st')))
         = fst (fst (fst (fst st)))
             +:+ concat_str (map (tsv_row suppress_taxonomic_output) entries)
      /\ snd (fst (fst (fst st')))
         = snd (fst (fst (fst st)))
             +:+ concat_str (map (html_row output_img_dir mapping_category
                                    suppress_taxonomic_output) entries)
      /\ snd (fst (fst st'))
         = snd (fst (fst st)) +:+ concat_str (map fasta_record entries)
      /\ length (snd (fst st')) = length (snd (fst st)) + length hits
      /\ length (snd st') = length (snd st) + length hits.
Proof.
  induction hits as [|h hits IH]; intros i st st' w w' Hrun.
  - injection Hrun as <- _. exists []. simpl.
    rewrite !append_empty_r, !Nat.add_0_r.
    repeat split; try constructor. intros [|k] e; discriminate.
  - cbn [enumerate_from fold_M] in Hrun.
    apply bind_Ok_inv in Hrun as (st1 & w1 & Hstep & Hrest).
    apply report_step_Ok in Hstep as (e & Hnum & Hhit & Hentry & ->).
    apply IH in Hrest
      as (entries & Hhits & Hnums & Hall & Htsv & Hhtml & Hfasta & Hfps & Hd).
    cbn [fst snd] in *.
    exists (e :: entries). cbn [map concat_str fold_right length].
    rewrite Htsv, Hhtml, Hfasta, Hfps, Hd, Hhit, Hhits, !append_assoc,
      !length_app.
    cbn [length].
    repeat split; try reflexivity; try lia.
    + intros [|k] e' Hk; simpl in Hk.
      * injection Hk as <-. lia.
      * rewrite (Hnums k e' Hk). lia.
    + now constructor.
Qed.

End ReportFacts.

Section ReportTheorems.
Context `{Externals}.

(** C7. When the assembler returns, there is one entry per ranked result, in
    rank order, numbered from 1; the TSV text is the header followed by one
    row per entry (one line each, when no field holds a newline), the FASTA
    text is one record per entry, and the HTML table has one row per entry,
    each TSV and HTML row starting with the number of its entry. *)
Theorem report_rows_follow_ranks (top_n_mw : list hit)
    (mw_seqs : gmap string string) (master_otu_table_ms : biom_table)
    (output_img_dir mapping_category : string)
    (suppress_taxonomic_output : bool) (num_categories_to_plot : Z)
    (w w' : world) (tsv_lines html_lines mw_fasta_lines : string)
    (plot_fps plot_data_fps : list string) :
  _format_top_n_results_table top_n_mw mw_seqs master_otu_table_ms
    output_img_dir mapping_category suppress_taxonomic_output
    num_categories_to_plot w
  = (Ok (tsv_lines, html_lines, mw_fasta_lines, plot_fps, plot_data_fps), w') ->
  exists entries : list entry,
    map e_hit entries = top_n_mw
    /\ (forall k e, nth_error entries k = Some e ->
                    e_num e = (Z.of_nat k + 1)%Z)
    /\ Forall (entry_of mw_seqs master_otu_table_ms suppress_taxonomic_output)
         entries
    /\ tsv_lines
       = tsv_header suppress_taxonomic_output
           +:+ concat_str (map (tsv_row suppress_taxonomic_output) entries)
    /\ (Forall (one_line_fields suppress_taxonomic_output) entries ->
        newlines tsv_lines = S (length top_n_mw))
    /\ mw_fasta_lines = concat_str (map fasta_record entries)
    /\ html_lines
       = (html_table_header mapping_category suppress_taxonomic_output
            +:+ concat_str (map (html_row output_img_dir mapping_category
                                   suppress_taxonomic_output) entries))
           +:+ "</table>"
    /\ length plot_fps = length top_n_mw
    /\ length plot_data_fps = length top_n_mw.
Proof.
  unfold _format_top_n_results_table, enumerate. unfold_bind. intros Hrun.
  apply bind_Ok_inv in Hrun as ([[[[tsv html] fasta] fps] dfps] & w1 & Hloop & Hret).
  unfold ret in Hret. injection Hret as <- <- <- <- <- _.
  apply report_loop_Ok in Hloop
    as (entries & Hhits & Hnums & Hall & Htsv & Hhtml & Hfasta & Hfps & Hd).
  cbn [fst snd length] in *.
  exists entries. rewrite Htsv, Hhtml, Hfasta, Hfps, Hd.
  repeat split; try assumption; try reflexivity.
  intros Hlines.
  rewrite newlines_append, newlines_tsv_header, newlines_tsv_rows by assumption.
  now rewrite <- Hhits, length_map.
Qed.

End ReportTheorems.

(** The report for two ranked results. *)
Lemma report_rows_follow_ranks_witness :
  exists entries : list entry,
    map e_hit entries = Sample.ranked
    /\ map e_num entries = [1; 2]%Z
    /\ fst (fst (fst (fst Sample.ranked_report)))
       = @tsv_header false
           +:+ concat_str (map (@tsv_row Sample.externals false) entries)
    /\ snd (fst (fst Sample.ranked_report))
       = concat_str (map fasta_record entries).
Proof.
  destruct (@report_rows_follow_ranks Sample.externals Sample.ranked
              Sample.seqs Sample.table "out/img" "ENV" false 2
              Sample.empty_world
              (snd (@_format_top_n_results_table Sample.externals
                      Sample.ranked Sample.seqs Sample.table "out/img" "ENV"
                      false 2 Sample.empty_world))
              (fst (fst (fst (fst Sample.ranked_report))))
              (snd (fst (fst (fst Sample.ranked_report))))
              (snd (fst (fst Sample.ranked_report)))
              (snd (fst Sample.ranked_report))
              (snd Sample.ranked_report))
    as (entries & Hhits & Hnums & _ & Htsv & _ & Hfasta & _).
  - vm_compute. reflexivity.
  - exists entries. repeat split; try assumption.
    destruct entries as [|e1 [|e2 [|e3 entries]]]; try discriminate.
    simpl. now rewrite (Hnums 0%nat e1 eq_refl), (Hnums 1%nat e2 eq_refl).
Defined.

(** ** The workflow *)

Section WorkflowTheorems.
Context `{Externals} {callback : Type}.



End WorkflowTheorems.


(* ================================================================== *)
(** * Further properties *)

(** ** More on the stable sort *)

Section SortedStable.
Context {A : Type} (key : A -> Q) (reverse : bool).

Lemma insert_sorted_filter_key (q : Q) (x : A) (l : list A) :
  List.filter (fun a => Qeq_bool (key a) q) (insert_sorted key reverse x l)
  = List.filter (fun a => Qeq_bool (key a) q) (x :: l).
Proof.
  induction l as [|y l IH]; [reflexivity|].
  cbn [insert_sorted]. destruct (precedes key reverse x y) eqn:Hxy;
    [reflexivity|].
  cbn [List.filter] in *. rewrite IH.
  destruct (Qeq_bool (key x) q) eqn:Hx; [|reflexivity].
  destruct (Qeq_bool (key y) q) eqn:Hy; [|reflexivity].
  exfalso. apply Qeq_bool_iff in Hx, Hy.
  assert (Hp : precedes key reverse x y = true).
  { apply precedes_in_order. unfold in_order.
    destruct reverse; rewrite Hx, Hy; apply Qle_refl. }
  congruence.
Qed.

(** Elements with equal keys leave the sort in the order they came in. *)
Lemma sorted_filter_key (q : Q) (l : list A) :
  List.filter (fun a => Qeq_bool (key a) q) (sorted key reverse l)
  = List.filter (fun a => Qeq_bool (key a) q) l.
Proof.
  induction l as [|x l IH]; [reflexivity|].
  cbn [sorted]. rewrite insert_sorted_filter_key. cbn [List.filter].
  now rewrite IH.
Qed.

End SortedStable.

Lemma filter_sublist {A} (p : A -> bool) (l : list A) :
  List.filter p l `sublist_of` l.
Proof.
  induction l as [|x l IH]; simpl; [constructor|].
  destruct (p x); now constructor.
Qed.

Lemma filter_firstn_sublist {A} (p : A -> bool) (k : nat) (l : list A) :
  List.filter p (firstn k l) `sublist_of` List.filter p l.
Proof.
  rewrite <- (firstn_skipn k l) at 2. rewrite List.filter_app.
  apply sublist_inserts_r. reflexivity.
Qed.

(** ** More on the top-N selector *)

Section SelectorMore.
Context `{Externals}.

Lemma select_sublist (thr : Q) (hits : list hit) :
  forall st,
    exists more, fst (fold_left (select thr) hits st) = fst st ++ more
                 /\ more `sublist_of` hits.
Proof.
  induction hits as [|h hits IH]; intros st; simpl.
  - exists []. split; [now rewrite app_nil_r | constructor].
  - destruct (IH (select thr st h)) as (more & -> & Hsub). unfold select.
    destruct (accepts thr (snd st) (hit_otu h) (hit_pi h)); simpl.
    + exists (h :: more). split; [now rewrite <- app_assoc | now constructor].
    + exists more. split; [reflexivity | now constructor].
Qed.

Lemma selected_sublist (thr : Q) (hits : list hit) :
  fst (fold_left (select thr) hits ([], ∅)) `sublist_of` hits.
Proof. destruct (select_sublist thr hits ([], ∅)) as (more & -> & Hsub). exact Hsub. Qed.

Lemma parsed_hits_length (lines : list string) (hits : list hit) :
  parsed_hits lines = Ok hits -> length hits <= length lines.
Proof.
  revert hits. induction lines as [|line lines IH]; intros hits; simpl.
  - intros [= <-]. reflexivity.
  - destruct (skipped line).
    + intros Hp. apply IH in Hp. lia.
    + unfold_bind. destruct (parse_line line); simpl; [|discriminate].
      destruct (parsed_hits lines) as [hits'|]; simpl; [|discriminate].
      intros [= <-]. simpl. specialize (IH hits' eq_refl). lia.
Qed.

Lemma selected_first_accepted (thr : Q) (hits : list hit) (h : hit) :
  In h (fst (fold_left (select thr) hits ([], ∅)))
  <-> first_accepted thr hits (hit_otu h) = Some h.
Proof.
  pose proof (selected_inv thr hits) as Hinv. split.
  - apply (inv_first _ _ _ Hinv).
  - intros Hf. destruct (first_accepted_Some thr _ _ _ Hf) as (Hin & _ & Hb).
    apply (inv_all _ _ _ Hinv) in Hin; [|assumption].
    apply in_map_iff in Hin as (h' & Heq & Hin').
    pose proof (inv_first _ _ _ Hinv h' Hin') as Hf'.
    rewrite Heq, Hf in Hf'. now injection Hf' as <-.
Qed.

(** X1. The returned hits are the lowest ones: a hit that is the first
    accepted hit of its query identifier and is not returned has a percent
    identity at least that of every returned hit. *)
Theorem top_n_are_the_lowest (blast_results_f : list string) (top_n : Z)
    (max_nt_similarity : Q) (hits res : list hit) :
  parsed_hits blast_results_f = Ok hits ->
  _get_top_n_blast_results blast_results_f top_n max_nt_similarity = Ok res ->
  forall h r,
    first_accepted max_nt_similarity hits (hit_otu h) = Some h ->
    ~ In h res -> In r res -> (hit_pi r <= hit_pi h)%Q.
Proof.
  intros Hp Hrun h r Hf Hnot Hr. rewrite top_n_of_parsed, Hp in Hrun.
  injection Hrun as <-.
  apply selected_first_accepted in Hf.
  set (kept := fst (fold_left (select max_nt_similarity) hits ([], ∅))) in *.
  destruct (slice_to_firstn top_n (sorted hit_pi false kept)) as [k Hk].
  rewrite Hk in Hnot, Hr.
  pose proof (sorted_StronglySorted hit_pi false kept) as Hs.
  rewrite <- (firstn_skipn k (sorted hit_pi false kept)) in Hs.
  apply (StronglySorted_app_order _ _ _ Hs r h Hr).
  assert (Hin : In h (sorted hit_pi false kept)).
  { eapply Permutation_in; [symmetry; apply sorted_Permutation | exact Hf]. }
  rewrite <- (firstn_skipn k (sorted hit_pi false kept)) in Hin.
  apply in_app_or in Hin as [Hin|Hin]; [contradiction | exact Hin].
Qed.

(** X2. Ties keep the input order: for every percent identity, the returned
    hits that have it stand in the order of the input lines. *)
Theorem top_n_ties_in_input_order (blast_results_f : list string) (top_n : Z)
    (max_nt_similarity : Q) (hits res : list hit) (q : Q) :
  parsed_hits blast_results_f = Ok hits ->
  _get_top_n_blast_results blast_results_f top_n max_nt_similarity = Ok res ->
  List.filter (fun h => Qeq_bool (hit_pi h) q) res `sublist_of` hits.
Proof.
  intros Hp Hrun. rewrite top_n_of_parsed, Hp in Hrun. injection Hrun as <-.
  set (kept := fst (fold_left (select max_nt_similarity) hits ([], ∅))).
  destruct (slice_to_firstn top_n (sorted hit_pi false kept)) as [k ->].
  etransitivity; [apply filter_firstn_sublist|].
  rewrite sorted_filter_key.
  etransitivity; [apply filter_sublist | apply selected_sublist].
Qed.

(** X3. [top_n] only cuts: the result for any [top_n], negative ones
    included, is the slice [[:top_n]] of the result for a [top_n] as large as
    the number of lines, and errors are the same. *)
Theorem top_n_only_truncates (blast_results_f : list string) (top_n : Z)
    (max_nt_similarity : Q) :
  _get_top_n_blast_results blast_results_f top_n max_nt_similarity
  = rbind (_get_top_n_blast_results blast_results_f
             (Z.of_nat (length blast_results_f)) max_nt_similarity)
          (fun all => Ok (slice_to top_n all)).
Proof.
  rewrite !top_n_of_parsed.
  destruct (parsed_hits blast_results_f) as [hits|e] eqn:Hp; [|reflexivity].
  simpl. do 2 f_equal.
  set (kept := fst (fold_left (select max_nt_similarity) hits ([], ∅))).
  unfold slice_to.
  destruct (Z.leb_spec 0 (Z.of_nat (length blast_results_f))) as [_|Hneg];
    [|lia].
  rewrite firstn_all2; [reflexivity|].
  rewrite (Permutation_length (sorted_Permutation hit_pi false kept)).
  pose proof (sublist_length _ _ (selected_sublist max_nt_similarity hits)).
  pose proof (parsed_hits_length _ _ Hp). fold kept in H0. lia.
Qed.

Lemma startswith_one (a c : ascii) (t : string) :
  startswith (String a "") (String c t) = if ascii_dec a c then true else false.
Proof.
  unfold startswith. cbn [String.prefix].
  destruct (ascii_dec a c); [now destruct t | reflexivity].
Qed.

Lemma prefix_hash_first_field (s a : string) (rest : list string) :
  split tab s = a :: rest -> startswith "#" s = startswith "#" a.
Proof.
  destruct s as [|c s]; cbn [split].
  - now intros [= <- _].
  - destruct (Ascii.eqb_spec c tab) as [->|Hne].
    + intros [= <- _]. rewrite startswith_one.
      destruct (ascii_dec "#" tab) as [E|_]; [|reflexivity].
      vm_compute in E. discriminate E.
    + destruct (split tab s) as [|piece pieces]; intros [= <- _];
        now rewrite !startswith_one.
Qed.

Lemma three_fields_not_skipped (line a b c : string) (rest : list string) :
  split tab (strip line) = a :: b :: c :: rest ->
  skipped line = startswith "#" a.
Proof.
  intros Hs. unfold skipped.
  rewrite (prefix_hash_first_field _ _ _ Hs).
  destruct (strip line) as [|ch s] eqn:Hline; [discriminate|].
  cbn [nonempty andb]. apply negb_involutive.
Qed.

Lemma parsed_hits_replace (before after : list string) (l1 l2 : string) :
  skipped l1 = skipped l2 -> parse_line l1 = parse_line l2 ->
  parsed_hits (before ++ l1 :: after) = parsed_hits (before ++ l2 :: after).
Proof.
  intros Hs Hl. induction before as [|l before IH]; simpl.
  - now rewrite Hs, Hl.
  - now rewrite IH.
Qed.

(** X4. Only the first three tab-separated fields of a line count: two lines
    that agree on them can stand for each other anywhere in the input. *)
Theorem fields_after_third_ignored (before after : list string)
    (l1 l2 a b c : string) (rest1 rest2 : list string) (top_n : Z)
    (max_nt_similarity : Q) :
  split tab (strip l1) = a :: b :: c :: rest1 ->
  split tab (strip l2) = a :: b :: c :: rest2 ->
  _get_top_n_blast_results (before ++ l1 :: after) top_n max_nt_similarity
  = _get_top_n_blast_results (before ++ l2 :: after) top_n max_nt_similarity.
Proof.
  intros H1 H2. rewrite !top_n_of_parsed.
  rewrite (parsed_hits_replace before after l1 l2); [reflexivity| |].
  - now rewrite (three_fields_not_skipped _ _ _ _ _ H1),
      (three_fields_not_skipped _ _ _ _ _ H2).
  - unfold parse_line. now rewrite H1, H2.
Qed.

(** X5. Input without hits, empty or made of blank and comment lines only,
    gives the empty list for any [top_n] and any threshold. *)
Theorem no_hits_no_results (blast_results_f : list string) (top_n : Z)
    (max_nt_similarity : Q) :
  Forall (fun line => skipped line = true) blast_results_f ->
  _get_top_n_blast_results blast_results_f top_n max_nt_similarity = Ok [].
Proof.
  intros Hall. rewrite top_n_of_parsed.
  assert (Hp : parsed_hits blast_results_f = Ok []).
  { induction Hall as [|line lines Hs _ IH]; simpl; [reflexivity|].
    now rewrite Hs. }
  rewrite Hp. simpl. now rewrite slice_to_nil.
Qed.

End SelectorMore.

(** ** More on the abundance summarizer *)

Lemma sublist_StronglySorted {A} (R : A -> A -> Prop) (l1 l2 : list A) :
  l1 `sublist_of` l2 -> StronglySorted R l2 -> StronglySorted R l1.
Proof.
  induction 1 as [|x l1 l2 Hsub IH|x l1 l2 Hsub IH]; intros Hs.
  - constructor.
  - apply StronglySorted_inv in Hs as [Hs Hx]. constructor; [auto|].
    rewrite List.Forall_forall in *. intros y Hy. apply Hx.
    apply list_elem_of_In. eapply elem_of_sublist; [|exact Hsub].
    now apply list_elem_of_In.
  - apply StronglySorted_inv in Hs as [Hs _]. auto.
Qed.

Lemma seq_StronglySorted (a n : nat) : StronglySorted lt (seq a n).
Proof.
  revert a. induction n as [|n IH]; intros a; simpl; constructor; [apply IH|].
  apply List.Forall_forall. intros i Hi. apply in_seq in Hi. lia.
Qed.



Section SummarizerMore.
Context `{Externals}.

(** The kept groups are the groups at the kept positions. *)
Lemma kept_groups_at_positions (data : list Q) (labels : list string)
    (max_count : Z) :
  length labels = length data ->
  kept_groups data labels max_count
  = map (fun i => (nth i data 0%Q, nth i labels "", color_at i))
        (kept_positions data max_count).
Proof.
  intros Hlen. unfold kept_groups, kept_positions.
  now rewrite (colored_from_seq data labels 0 Hlen), sorted_map, slice_to_map.
Qed.

Lemma kept_positions_bounds (data : list Q) (max_count : Z) :
  Forall (fun i => i < length data) (kept_positions data max_count)
  /\ List.NoDup (kept_positions data max_count).
Proof.
  unfold kept_positions.
  set (order := sorted (fun i => nth i data 0%Q) true (seq 0 (length data))).
  assert (Hperm : Permutation order (seq 0 (length data)))
    by apply sorted_Permutation.
  destruct (slice_to_firstn max_count order) as [k ->]. split.
  - apply firstn_Forall, List.Forall_forall. intros i Hi.
    apply (Permutation_in _ Hperm), in_seq in Hi. lia.
  - rewrite <- (map_id (firstn k order)). apply firstn_NoDup_map.
    rewrite map_id. eapply Permutation_NoDup; [symmetry; exact Hperm|].
    apply seq_NoDup.
Qed.

Lemma pie_chart_Ok_kept (labels : list string) (data : list Q)
    (max_count : Z) (w : world) (pd : plot_data) :
  fst (_format_pie_chart_data labels data max_count w) = Ok pd ->
  length labels = length data
  /\ summary_of (kept_groups data labels max_count) = Ok pd.
Proof.
  rewrite pie_chart_fst. unfold pie_chart_result.
  destruct (Nat.eqb_spec (length labels) (length data)) as [Hlen|Hne];
    [|discriminate].
  cbn [negb]. intros Hr. split; [assumption|].
  destruct palette; destruct (zip data labels); try discriminate; exact Hr.
Qed.

(** X6. The three returned sequences are aligned: they have the same length,
    which is at most the number of input groups. *)
Theorem pie_chart_sequences_aligned (labels : list string) (data : list Q)
    (max_count : Z) (w : world) (fractions : list Q)
    (labels' colors : list string) :
  fst (_format_pie_chart_data labels data max_count w)
  = Ok (fractions, labels', colors) ->
  length labels' = length fractions
  /\ length colors = length fractions
  /\ length fractions <= length data.
Proof.
  intros Hr. apply pie_chart_Ok_kept in Hr as [Hlen Hs].
  apply summary_of_Ok in Hs. injection Hs as -> -> ->.
  rewrite !length_map. repeat split.
  rewrite (kept_groups_at_positions _ _ _ Hlen), length_map.
  destruct (kept_positions_bounds data max_count) as [Hb Hnd].
  assert (Hle : length (kept_positions data max_count)
                <= length (seq 0 (length data))).
  { apply NoDup_incl_length; [assumption|].
    intros i Hi. rewrite List.Forall_forall in Hb. apply in_seq.
    specialize (Hb i Hi). lia. }
  now rewrite length_seq in Hle.
Qed.


(** X8. When the palette has no color twice and at least as many colors as
    there are input groups, no two returned groups share a color. *)
Theorem pie_chart_colors_distinct (labels : list string) (data : list Q)
    (max_count : Z) (w : world) (fractions : list Q)
    (labels' colors : list string) :
  List.NoDup palette -> length data <= length palette ->
  fst (_format_pie_chart_data labels data max_count w)
  = Ok (fractions, labels', colors) ->
  List.NoDup colors.
Proof.
  intros Hpal Hfit Hr. apply pie_chart_Ok_kept in Hr as [Hlen Hs].
  apply summary_of_Ok in Hs. injection Hs as _ _ ->.
  rewrite (kept_groups_at_positions _ _ _ Hlen), map_map. cbn [group_color snd].
  destruct (kept_positions_bounds data max_count) as [Hb Hnd].
  apply NoDup_map_NoDup_ForallPairs; [|assumption].
  intros i j Hi Hj Heq. rewrite List.Forall_forall in Hb.
  pose proof (Hb i Hi). pose proof (Hb j Hj). unfold color_at in Heq.
  rewrite !Nat.mod_small in Heq by lia.
  apply (proj1 (NoDup_nth palette "") Hpal); [lia | lia | exact Heq].
Qed.

(** X9. A call with labels and counts of equal length draws one color for
    every input group, kept or not: it leaves one new iterator in the store,
    as many colors on as there are input groups, wrapped around the
    palette. *)
Theorem pie_chart_draws_one_color_per_group (labels : list string)
    (data : list Q) (max_count : Z) (w : world) :
  palette <> [] -> length labels = length data ->
  iters (snd (_format_pie_chart_data labels data max_count w))
  = iters w ++ [{| cyc_items := palette;
                   cyc_pos := length data mod length palette |}].
Proof.
  intros Hne Hlen. rewrite pie_chart_run, Hlen, Nat.eqb_refl.
  unfold spent_cycle. cbn [snd with_iters iters].
  rewrite (zip_length _ _ Hlen). destruct palette; [contradiction|reflexivity].
Qed.

(** X10. The returned groups are the input groups at the positions
    [kept_positions], normalised by the sum of the counts at these positions;
    the counts do not increase along them, and positions with equal counts
    come in input order. *)
Theorem pie_chart_ties_in_input_order (labels : list string) (data : list Q)
    (max_count : Z) (w : world) (fractions : list Q)
    (labels' colors : list string) :
  fst (_format_pie_chart_data labels data max_count w)
  = Ok (fractions, labels', colors) ->
  fractions
  = map (fun i => (nth i data 0
                   / sum (map (fun j => nth j data 0)
                              (kept_positions data max_count)))%Q)
        (kept_positions data max_count)
  /\ labels'
     = map (fun i => format_label (nth i labels "")
                       (nth i data 0
                        / sum (map (fun j => nth j data 0)
                                   (kept_positions data max_count)))%Q)
           (kept_positions data max_count)
  /\ colors
     = map (fun i => nth (i mod length palette) palette "")
           (kept_positions data max_count)
  /\ StronglySorted (fun i j => (nth j data 0 <= nth i data 0)%Q)
       (kept_positions data max_count)
  /\ forall q,
       StronglySorted lt
         (List.filter (fun i => Qeq_bool (nth i data 0%Q) q)
            (kept_positions data max_count)).
Proof.
  intros Hr. apply pie_chart_Ok_kept in Hr as [Hlen Hs].
  apply summary_of_Ok in Hs. injection Hs as -> -> ->.
  rewrite (kept_groups_at_positions _ _ _ Hlen), !map_map.
  split; [reflexivity|]. split; [reflexivity|]. split; [reflexivity|].
  unfold kept_positions.
  set (order := sorted (fun i => nth i data 0%Q) true (seq 0 (length data))).
  destruct (slice_to_firstn max_count order) as [k ->]. split.
  - apply firstn_StronglySorted.
    apply (sorted_StronglySorted (fun i => nth i data 0%Q) true).
  - intros q. eapply sublist_StronglySorted.
    + etransitivity; [apply filter_firstn_sublist|].
      unfold order. rewrite sorted_filter_key. apply filter_sublist.
    + apply seq_StronglySorted.
Qed.

(** X11. The legend is the opening tag, one item per plotted group in
    order, and the closing tag; of the fractions only their number counts. *)
Theorem legend_one_item_per_group (fractions : list Q)
    (labels colors : list string) :
  _format_legend_html (fractions, labels, colors)
  = ("<ul class=" +:+ DQ +:+ "most_wanted_otus_legend" +:+ DQ +:+ ">")
      +:+ concat_str
            (map (fun '(label, color) => legend_item color label)
                 (firstn (length fractions) (zip labels colors)))
      +:+ "</ul>".
Proof.
  unfold _format_legend_html.
  generalize ("<ul class=" +:+ DQ +:+ "most_wanted_otus_legend" +:+ DQ +:+ ">").
  intros start. rewrite <- append_assoc. f_equal.
  revert labels colors start.
  induction fractions as [|f fractions IH]; intros labels colors start.
  - simpl. now rewrite append_empty_r.
  - destruct labels as [|l labels]; [simpl; now rewrite append_empty_r|].
    destruct colors as [|c colors]; [simpl; now rewrite append_empty_r|].
    cbn [zip3 zip length firstn fold_left map concat_str fold_right].
    rewrite IH. now rewrite append_assoc.
Qed.

End SummarizerMore.

(** ** Words, pieces and lines *)

Lemma length_append (s1 s2 : string) :
  String.length (s1 +:+ s2) = String.length s1 + String.length s2.
Proof.
  induction s1 as [|c s1 IH]; [reflexivity|].
  change (S (String.length (s1 +:+ s2))
          = S (String.length s1) + String.length s2).
  now rewrite IH.
Qed.

Lemma nonempty_append_char (s : string) (c : ascii) :
  nonempty (s +:+ String c "") = true.
Proof. now destruct s. Qed.

Lemma has_space_append_char (s : string) (c : ascii) :
  has_space (s +:+ String c "") = has_space s || is_space c.
Proof.
  induction s as [|a s IH].
  - simpl. now rewrite orb_false_r.
  - change (is_space a || has_space (s +:+ String c "")
            = is_space a || has_space s || is_space c).
    now rewrite IH, orb_assoc.
Qed.

Lemma split_ws_aux_lstrip (s : string) :
  split_ws_aux "" (lstrip s) = split_ws_aux "" s.
Proof.
  induction s as [|c s IH]; [reflexivity|].
  simpl. destruct (is_space c) eqn:Hc; [exact IH|].
  simpl. now rewrite Hc.
Qed.

Lemma split_ws_aux_cons (cur : string) (c : ascii) (s : string) :
  split_ws_aux cur (String c s)
  = if is_space c
    then (if nonempty cur then cur :: split_ws_aux "" s
          else split_ws_aux "" s)
    else split_ws_aux (cur +:+ String c "") s.
Proof. reflexivity. Qed.

Lemma split_ws_aux_rstrip (s : string) :
  forall cur, split_ws_aux cur (rstrip s) = split_ws_aux cur s.
Proof.
  induction s as [|c s IH]; intros cur; [reflexivity|].
  rewrite (split_ws_aux_cons cur c s), <- !IH. cbn [rstrip].
  destruct (rstrip s) as [|c' t].
  - destruct (is_space c) eqn:Hc.
    + simpl. now destruct (nonempty cur).
    + now rewrite split_ws_aux_cons, Hc.
  - now rewrite (split_ws_aux_cons cur c (String c' t)).
Qed.

(** Stripping a text before splitting it into words changes nothing. *)
Lemma split_ws_strip (s : string) : split_ws (strip s) = split_ws s.
Proof.
  unfold split_ws, strip. now rewrite split_ws_aux_rstrip, split_ws_aux_lstrip.
Qed.

Lemma split_ws_aux_words (s : string) :
  forall cur,
    has_space cur = false ->
    Forall (fun word => nonempty word = true /\ has_space word = false)
           (split_ws_aux cur s).
Proof.
  induction s as [|c s IH]; intros cur Hcur; cbn [split_ws_aux].
  - destruct (nonempty cur) eqn:Hn; repeat constructor; assumption.
  - destruct (is_space c) eqn:Hc.
    + destruct (nonempty cur) eqn:Hn; [constructor; [now split|]|]; now apply IH.
    + apply IH. now rewrite has_space_append_char, Hcur, Hc.
Qed.

Lemma chunks_aux_concat (n : nat) (s : string) :
  forall cur room, concat_str (chunks_aux n cur room s) = cur +:+ s.
Proof.
  induction s as [|c s IH]; intros cur room; cbn [chunks_aux].
  - destruct cur; [reflexivity|]. simpl. now rewrite !append_empty_r.
  - destruct room as [|room].
    + cbn [concat_str fold_right].
      fold (concat_str (chunks_aux n (String c "") (n - 1) s)).
      now rewrite IH.
    + rewrite IH, append_assoc. reflexivity.
Qed.

Lemma chunks_aux_sizes (n : nat) (s : string) :
  0 < n ->
  forall cur room,
    String.length cur + room = n ->
    Forall (fun piece => 1 <= String.length piece <= n)
           (chunks_aux n cur room s).
Proof.
  intros Hpos. induction s as [|c s IH]; intros cur room Hn; cbn [chunks_aux].
  - destruct cur as [|a cur]; cbn [nonempty]; [constructor|].
    constructor; [simpl in *; lia | constructor].
  - destruct room as [|room].
    + constructor; [lia|]. apply IH. simpl. lia.
    + apply IH. rewrite length_append. simpl. lia.
Qed.

(** X12. Cutting a sequence into pieces of at most [n] characters (40 in the
    report) loses nothing: the pieces put together are the sequence, and each
    piece has at least one character and at most [n]. *)
Theorem chunks_partition (n : nat) (seq : string) :
  0 < n ->
  concat_str (chunks n seq) = seq
  /\ Forall (fun piece => 1 <= String.length piece <= n) (chunks n seq).
Proof.
  intros Hn. unfold chunks. split.
  - now rewrite chunks_aux_concat.
  - destruct seq as [|c seq]; [constructor|].
    cbn [chunks_aux]. destruct n as [|n]; [lia|].
    apply chunks_aux_sizes; [lia|]. simpl. lia.
Qed.

(** ** The representative-set lookup *)

Lemma find_append {A} (p : A -> bool) (l1 l2 : list A) :
  find p (l1 ++ l2)
  = match find p l1 with
    | Some x => Some x
    | None => find p l2
    end.
Proof.
  induction l1 as [|x l1 IH]; [reflexivity|].
  simpl. now destruct (p x).
Qed.

Lemma words_or_blank (records : list (string * string)) :
  Forall (fun r => split_ws (fst r) <> []) records
  \/ Exists (fun r => split_ws (fst r) = []) records.
Proof.
  induction records as [|r records [IH|IH]].
  - left. constructor.
  - destruct (split_ws (fst r)) eqn:Hw.
    + right. now constructor.
    + left. constructor; [congruence | assumption].
  - right. now constructor 2.
Qed.

Section RepSetLookup.
Context `{Externals}.

Lemma rep_set_loop (records : list (string * string)) :
  forall m0 : gmap string string,
    (Forall (fun r => split_ws (fst r) <> []) records ->
     exists m,
       fold_result (fun (result : gmap string string) '(seq_id, seq) =>
                      rbind (index (split_ws (strip seq_id)) 0)
                            (fun seq_id => Ok (<[seq_id := seq]> result)))
                   records m0
       = Ok m
       /\ forall seq_id,
           m !! seq_id
           = match find (labelled seq_id) (rev records) with
             | Some r => Some (snd r)
             | None => m0 !! seq_id
             end)
    /\ (Exists (fun r => split_ws (fst r) = []) records ->
        fold_result (fun (result : gmap string string) '(seq_id, seq) =>
                       rbind (index (split_ws (strip seq_id)) 0)
                             (fun seq_id => Ok (<[seq_id := seq]> result)))
                    records m0
        = Raise IndexError).
Proof.
  induction records as [|[label seq] records IH]; intros m0.
  - split; [|intros Hex; inversion Hex].
    intros _. exists m0. split; [reflexivity|]. intros seq_id. reflexivity.
  - cbn [fold_result]. rewrite split_ws_strip. unfold index at 1 3.
    destruct (split_ws label) as [|word words] eqn:Hw; cbn [nth_error rbind].
    + split.
      * intros Hall. apply Forall_inv in Hall. simpl in Hall. congruence.
      * reflexivity.
    + destruct (IH (<[word := seq]> m0)) as [IHok IHerr]. split.
      * intros Hall. apply Forall_inv_tail in Hall.
        destruct (IHok Hall) as (m & -> & Hm). exists m. split; [reflexivity|].
        intros seq_id. rewrite Hm. cbn [rev]. rewrite find_append.
        destruct (find (labelled seq_id) (rev records)); [reflexivity|].
        cbn [find]. unfold labelled at 1. cbn [fst snd]. rewrite Hw.
        destruct (String.eqb_spec word seq_id) as [->|Hne].
        -- now rewrite lookup_insert_eq.
        -- now rewrite lookup_insert_ne.
      * intros Hex. apply Exists_cons in Hex as [Hhd|Htl];
          [simpl in Hhd; congruence | now apply IHerr].
Qed.

(** X13. For sequence ids that occur more than once the last record wins:
    the lookup holds, for every id, the sequence of the last record whose
    label starts with that id as its first word, and nothing for other
    ids. *)
Theorem rep_set_last_record_wins (rep_set_f : list string)
    (records : list (string * string)) (result : gmap string string)
    (seq_id : string) :
  MinimalFastaParser rep_set_f = Ok records ->
  _get_rep_set_lookup rep_set_f = Ok result ->
  result !! seq_id = snd <$> find (labelled seq_id) (rev records).
Proof.
  unfold _get_rep_set_lookup. unfold_bind. intros -> Hrun. cbn [rbind] in Hrun.
  destruct (rep_set_loop records ∅) as [Hok Herr].
  destruct (words_or_blank records) as [Hall|Hex].
  - destruct (Hok Hall) as (m & Hm & Hlookup). rewrite Hm in Hrun.
    injection Hrun as <-. rewrite Hlookup.
    destruct (find (labelled seq_id) (rev records)); [reflexivity|].
    apply lookup_empty.
  - rewrite (Herr Hex) in Hrun. discriminate.
Qed.


(** X15. The ids the lookup is keyed by are never empty and never hold
    whitespace. *)
Theorem rep_set_keys_are_words (rep_set_f : list string)
    (result : gmap string string) (seq_id seq : string) :
  _get_rep_set_lookup rep_set_f = Ok result ->
  result !! seq_id = Some seq ->
  nonempty seq_id = true /\ has_space seq_id = false.
Proof.
  intros Hrun Hl.
  destruct (MinimalFastaParser rep_set_f) as [records|e] eqn:Hp.
  - rewrite (rep_set_last_record_wins _ _ _ seq_id Hp Hrun) in Hl.
    destruct (find (labelled seq_id) (rev records)) as [r|] eqn:Hf;
      [|discriminate].
    apply find_some in Hf as [_ Hlab]. unfold labelled in Hlab.
    pose proof (split_ws_aux_words (fst r) "" eq_refl) as Hwords.
    fold (split_ws (fst r)) in Hwords.
    destruct (split_ws (fst r)) as [|word words]; [discriminate|].
    apply String.eqb_eq in Hlab as <-. now apply Forall_inv in Hwords.
  - unfold _get_rep_set_lookup in Hrun. unfold_bind. rewrite Hp in Hrun.
    discriminate.
Qed.

End RepSetLookup.

(** ** The filtering commands *)

Section FilteringCommands.
Context `{Externals}.

Lemma filtering_loop_shape (output_dir gg_fp mapping_fp mapping_category : string)
    (min_abundance max_abundance : Z) (otu_table_fps : list string) :
  forall st,
    length (fst (fold_left (filtering_step output_dir gg_fp mapping_fp
                              mapping_category min_abundance max_abundance)
                           otu_table_fps st))
    = length (fst st) + 4 * length otu_table_fps
    /\ (Forall (fun c : list command => length c = 1) (fst st) ->
        Forall (fun c : list command => length c = 1)
          (fst (fold_left (filtering_step output_dir gg_fp mapping_fp
                             mapping_category min_abundance max_abundance)
                          otu_table_fps st))).
Proof.
  induction otu_table_fps as [|fp fps IH]; intros [commands merge].
  - simpl. split; [lia | auto].
  - cbn [fold_left].
    destruct (IH (filtering_step output_dir gg_fp mapping_fp mapping_category
                    min_abundance max_abundance (commands, merge) fp))
      as [Hlen Hall].
    split.
    + rewrite Hlen. cbn [filtering_step fst]. rewrite !length_app. simpl. lia.
    + intros Hc. apply Hall. cbn [filtering_step fst].
      repeat (apply Forall_app; split); try assumption;
        repeat constructor.
Qed.

(** X16. Without a merged table the commands are four per OTU table, the
    merge, and five more; with a merged table they are these five only,
    whatever the OTU tables; and every entry handed to the command handler
    holds exactly one command. *)
Theorem filtering_commands_count (output_dir : string)
    (otu_table_fps : list string)
    (rep_set_fp gg_fp nt_fp mapping_fp mapping_category : string)
    (min_abundance max_abundance min_categories : Z)
    (max_gg_similarity e_value : Q) (word_size : Z)
    (merged_otu_table_fp : option string) (jobs_to_start : Z) :
  length (fst (fst (fst (_get_most_wanted_filtering_commands output_dir
                           otu_table_fps rep_set_fp gg_fp nt_fp mapping_fp
                           mapping_category min_abundance max_abundance
                           min_categories max_gg_similarity e_value word_size
                           merged_otu_table_fp jobs_to_start))))
  = match merged_otu_table_fp with
    | None => 4 * length otu_table_fps + 6
    | Some _ => 5
    end
  /\ Forall (fun c : list command => length c = 1)
       (fst (fst (fst (_get_most_wanted_filtering_commands output_dir
                         otu_table_fps rep_set_fp gg_fp nt_fp mapping_fp
                         mapping_category min_abundance max_abundance
                         min_categories max_gg_similarity e_value word_size
                         merged_otu_table_fp jobs_to_start)))).
Proof.
  unfold _get_most_wanted_filtering_commands.
  destruct merged_otu_table_fp as [fp|].
  - cbn [fst]. rewrite !length_app. split; [reflexivity|].
    repeat (apply Forall_app; split); repeat constructor.
  - destruct (filtering_loop_shape output_dir gg_fp mapping_fp mapping_category
                min_abundance max_abundance otu_table_fps ([], []))
      as [Hlen Hall].
    destruct (fold_left _ otu_table_fps ([], [])) as [commands merge].
    cbn [fst] in *. rewrite !length_app, Hlen. split; [simpl; lia|].
    repeat (apply Forall_app; split); try (now apply Hall);
      repeat constructor.
Qed.

(** X17. The two returned sequence paths, the BLAST output and the
    candidate sequences that failed to hit the reference, depend on the
    output directory and the representative set only. *)
Theorem sequence_paths_depend_on_rep_set_only (output_dir rep_set_fp : string)
    (otu_table_fps otu_table_fps' : list string)
    (gg_fp nt_fp mapping_fp mapping_category : string)
    (gg_fp' nt_fp' mapping_fp' mapping_category' : string)
    (min_abundance max_abundance min_categories : Z)
    (min_abundance' max_abundance' min_categories' : Z)
    (max_gg_similarity e_value max_gg_similarity' e_value' : Q)
    (word_size word_size' : Z)
    (merged_otu_table_fp merged_otu_table_fp' : option string)
    (jobs_to_start jobs_to_start' : Z) :
  snd (fst (fst (_get_most_wanted_filtering_commands output_dir otu_table_fps
                   rep_set_fp gg_fp nt_fp mapping_fp mapping_category
                   min_abundance max_abundance min_categories
                   max_gg_similarity e_value word_size merged_otu_table_fp
                   jobs_to_start)))
  = snd (fst (fst (_get_most_wanted_filtering_commands output_dir
                     otu_table_fps' rep_set_fp gg_fp' nt_fp' mapping_fp'
                     mapping_category' min_abundance' max_abundance'
                     min_categories' max_gg_similarity' e_value' word_size'
                     merged_otu_table_fp' jobs_to_start')))
  /\ snd (fst (_get_most_wanted_filtering_commands output_dir otu_table_fps
                 rep_set_fp gg_fp nt_fp mapping_fp mapping_category
                 min_abundance max_abundance min_categories
                 max_gg_similarity e_value word_size merged_otu_table_fp
                 jobs_to_start))
     = snd (fst (_get_most_wanted_filtering_commands output_dir
                   otu_table_fps' rep_set_fp gg_fp' nt_fp' mapping_fp'
                   mapping_category' min_abundance' max_abundance'
                   min_categories' max_gg_similarity' e_value' word_size'
                   merged_otu_table_fp' jobs_to_start')).
Proof.
  unfold _get_most_wanted_filtering_commands.
  destruct merged_otu_table_fp, merged_otu_table_fp';
    repeat match goal with
           | |- context [fold_left ?f ?l ?a] => destruct (fold_left f l a)
           end;
    split; reflexivity.
Qed.

End FilteringCommands.

(** ** What the report assembler does to the world *)

Lemma extends_refl (w : world) : extends w w.
Proof.
  repeat split; [exists [] | exists []]; now rewrite app_nil_r.
Qed.

Lemma extends_trans (w1 w2 w3 : world) :
  extends w1 w2 -> extends w2 w3 -> extends w1 w3.
Proof.
  intros (Hd1 & Hf1 & [i1 Hi1] & [t1 Ht1]) (Hd2 & Hf2 & [i2 Hi2] & [t2 Ht2]).
  repeat split; [congruence | congruence | |].
  - exists (i1 ++ i2). now rewrite Hi2, Hi1, app_assoc.
  - exists (t1 ++ t2). now rewrite Ht2, Ht1, app_assoc.
Qed.

Lemma bind_extends {A B} (m : M A) (k : A -> M B) :
  (forall w, extends w (snd (m w))) ->
  (forall a w, extends w (snd (k a w))) ->
  forall w, extends w (snd (bind m k w)).
Proof.
  intros Hm Hk w. unfold bind. specialize (Hm w).
  destruct (m w) as [[a|e] w1]; [|exact Hm].
  eapply extends_trans; [exact Hm | apply Hk].
Qed.

Lemma emit_extends (e : event) (w : world) : extends w (snd (emit e w)).
Proof.
  repeat split; [exists [] | exists [e]]; simpl; now rewrite ?app_nil_r.
Qed.

Lemma lift_inv {A} (r x : result A) (w w' : world) :
  lift r w = (x, w') -> r = x /\ w' = w.
Proof. unfold lift. now intros [= -> ->]. Qed.

Section ReportEffects.
Context `{Externals}.

Lemma pie_chart_extends (labels : list string) (data : list Q) (max_count : Z)
    (w : world) :
  extends w (snd (_format_pie_chart_data labels data max_count w)).
Proof.
  rewrite pie_chart_run. cbn [snd].
  destruct (length labels =? length data)%nat; [|apply extends_refl].
  repeat split; [eexists; reflexivity | exists []; simpl; now rewrite app_nil_r].
Qed.

Lemma report_step_extends (mw_seqs : gmap string string)
    (master_otu_table_ms : biom_table) (output_img_dir mapping_category : string)
    (suppress_taxonomic_output : bool) (num_categories_to_plot : Z)
    (st : report) (item : Z * hit) (w : world) :
  extends w
    (snd (report_step mw_seqs master_otu_table_ms output_img_dir
            mapping_category suppress_taxonomic_output num_categories_to_plot
            st item w)).
Proof.
  destruct st as [[[[tsv html] fasta] fps] dfps].
  destruct item as [mw_num [[otu_id subject_id] percent_identity]].
  unfold report_step. unfold_bind. revert w.
  apply bind_extends; [intros w; apply extends_refl|]. intros seq.
  apply bind_extends.
  { intros w. destruct (negb suppress_taxonomic_output); apply extends_refl. }
  intros tax. apply bind_extends; [intros w; apply extends_refl|]. intros gb_id.
  apply bind_extends; [intros w; apply extends_refl|]. intros counts.
  apply bind_extends; [apply pie_chart_extends|]. intros pd.
  apply bind_extends; [apply emit_extends|]. intros _.
  apply bind_extends; [apply emit_extends|]. intros _ w.
  apply extends_refl.
Qed.

(** X18. Whatever its outcome, the report assembler leaves the directories
    and the files as they were, and the iterators and effects that were there
    stay: it only adds iterators and effects. *)
Theorem report_assembler_only_adds_effects (top_n_mw : list hit)
    (mw_seqs : gmap string string) (master_otu_table_ms : biom_table)
    (output_img_dir mapping_category : string)
    (suppress_taxonomic_output : bool) (num_categories_to_plot : Z)
    (w : world) :
  extends w
    (snd (_format_top_n_results_table top_n_mw mw_seqs master_otu_table_ms
            output_img_dir mapping_category suppress_taxonomic_output
            num_categories_to_plot w)).
Proof.
  unfold _format_top_n_results_table, enumerate. unfold_bind. revert w.
  apply bind_extends.
  - generalize 0%Z.
    generalize (tsv_header suppress_taxonomic_output,
                html_table_header mapping_category suppress_taxonomic_output,
                "", @nil string, @nil string).
    induction top_n_mw as [|h hits IH]; intros st i w.
    + apply extends_refl.
    + cbn [enumerate_from fold_M]. revert w. apply bind_extends.
      * apply report_step_extends.
      * intros st'. apply IH.
  - intros [[[[tsv html] fasta] fps] dfps] w. apply extends_refl.
Qed.

End ReportEffects.

Section ReportCharts.
Context `{Externals}.
Variables (mw_seqs : gmap string string) (master_otu_table_ms : biom_table).
Variables (output_img_dir mapping_category : string).
Variables (suppress_taxonomic_output : bool) (num_categories_to_plot : Z).

Lemma report_step_charts (st st' : report) (mw_num : Z) (h : hit)
    (w w' : world) :
  report_step mw_seqs master_otu_table_ms output_img_dir mapping_category
    suppress_taxonomic_output num_categories_to_plot st (mw_num, h) w
  = (Ok st', w') ->
  exists pd,
    chart_of master_otu_table_ms num_categories_to_plot h pd
    /\ trace w' = trace w ++ chart_events output_img_dir mapping_category (h, pd)
    /\ length (iters w') = S (length (iters w))
    /\ snd (fst st')
       = snd (fst st) ++ [chart_fp output_img_dir mapping_category ".png" h]
    /\ snd st' = snd st ++ [chart_fp output_img_dir mapping_category ".p" h].
Proof.
  destruct st as [[[[tsv html] fasta] fps] dfps].
  destruct h as [[otu_id subject_id] percent_identity].
  unfold report_step. unfold_bind. intros Hrun.
  apply bind_Ok_inv in Hrun as (seq & w1 & Hseq & Hrun).
  apply lift_inv in Hseq as [_ ->].
  apply bind_Ok_inv in Hrun as (tax & w2 & Htax & Hrun).
  assert (w2 = w) as ->.
  { destruct (negb suppress_taxonomic_output);
      [now apply lift_inv in Htax | now injection Htax]. }
  apply bind_Ok_inv in Hrun as (gb_id & w3 & Hgb & Hrun).
  apply lift_inv in Hgb as [_ ->].
  apply bind_Ok_inv in Hrun as (counts & w4 & Hcounts & Hrun).
  apply lift_inv in Hcounts as [Hcounts ->].
  apply bind_Ok_inv in Hrun as (pd & w5 & Hpie & Hrun).
  rewrite pie_chart_run in Hpie. injection Hpie as Hpd Hw5.
  assert (Hlen : (length (SampleIds master_otu_table_ms) =? length counts)%nat
                 = true).
  { unfold pie_chart_result in Hpd.
    destruct (length (SampleIds master_otu_table_ms) =? length counts)%nat;
      [reflexivity | discriminate]. }
  rewrite Hlen in Hw5. subst w5.
  unfold bind, emit, ret in Hrun. cbn in Hrun. injection Hrun as <- <-.
  exists pd. split; [|split; [|split; [|split]]].
  - exists counts. split; [assumption|]. intros w0. now rewrite pie_chart_fst.
  - cbn. now rewrite <- app_assoc.
  - cbn. rewrite length_app. simpl. lia.
  - reflexivity.
  - reflexivity.
Qed.

Lemma report_loop_charts (hits : list hit) :
  forall (i : Z) (st st' : report) (w w' : world),
    fold_M (report_step mw_seqs master_otu_table_ms output_img_dir
              mapping_category suppress_taxonomic_output
              num_categories_to_plot)
           (enumerate_from i hits) st w
    = (Ok st', w') ->
    exists plots : list plot_data,
      Forall2 (chart_of master_otu_table_ms num_categories_to_plot) hits plots
      /\ trace w'
         = trace w
             ++ concat (map (chart_events output_img_dir mapping_category)
                            (zip hits plots))
      /\ length (iters w') = length (iters w) + length hits
      /\ snd (fst st')
         = snd (fst st)
             ++ map (chart_fp output_img_dir mapping_category ".png") hits
      /\ snd st'
         = snd st ++ map (chart_fp output_img_dir mapping_category ".p") hits.
Proof.
  induction hits as [|h hits IH]; intros i st st' w w' Hrun.
  - injection Hrun as <- <-. exists []. simpl. rewrite !app_nil_r.
    repeat split; [constructor | lia].
  - cbn [enumerate_from fold_M] in Hrun.
    apply bind_Ok_inv in Hrun as (st1 & w1 & Hstep & Hrest).
    apply report_step_charts in Hstep as (pd & Hpd & Ht1 & Hi1 & Hf1 & Hd1).
    apply IH in Hrest as (plots & Hall & Ht & Hi & Hf & Hd).
    exists (pd :: plots). cbn [zip map concat length].
    rewrite Ht, Ht1, Hi, Hi1, Hf, Hf1, Hd, Hd1, <- !app_assoc.
    repeat split; try reflexivity; [now constructor | lia].
Qed.

(** X19. When the assembler returns, it has drawn one chart and pickled one
    chart data per ranked result, in rank order and at the returned paths;
    each chart is the summarizer's result for the counts of its OTU; and one
    iterator per result has been added to the store. *)
Theorem report_charts_follow_ranks (top_n_mw : list hit) (w w' : world)
    (tsv_lines html_lines mw_fasta_lines : string)
    (plot_fps plot_data_fps : list string) :
  _format_top_n_results_table top_n_mw mw_seqs master_otu_table_ms
    output_img_dir mapping_category suppress_taxonomic_output
    num_categories_to_plot w
  = (Ok (tsv_lines, html_lines, mw_fasta_lines, plot_fps, plot_data_fps), w') ->
  plot_fps = map (chart_fp output_img_dir mapping_category ".png") top_n_mw
  /\ plot_data_fps
     = map (chart_fp output_img_dir mapping_category ".p") top_n_mw
  /\ exists plots : list plot_data,
       Forall2 (chart_of master_otu_table_ms num_categories_to_plot) top_n_mw
         plots
       /\ trace w'
          = trace w
              ++ concat (map (chart_events output_img_dir mapping_category)
                             (zip top_n_mw plots))
       /\ length (iters w') = length (iters w) + length top_n_mw.
Proof.
  unfold _format_top_n_results_table, enumerate. unfold_bind. intros Hrun.
  apply bind_Ok_inv in Hrun
    as ([[[[tsv html] fasta] fps] dfps] & w1 & Hloop & Hret).
  unfold ret in Hret. injection Hret as <- <- <- <- <- <-.
  apply report_loop_charts in Hloop as (plots & Hall & Ht & Hi & Hf & Hd).
  cbn [fst snd] in *. rewrite Hf, Hd. repeat split. exists plots. auto.
Qed.

End ReportCharts.

(** ** More on the workflow *)





Lemma makedirs_or_pass (path : string) (w : world) :
  exists w',
    try_except_OSError (makedirs path) (ret tt) w = (Ok tt, w')
    /\ path ∈ dirs w' /\ files w' = files w /\ iters w' = iters w
    /\ trace w' = trace w.
Proof.
  unfold try_except_OSError, makedirs, ret.
  destruct (bool_decide (path ∈ dirs w)) eqn:Hd.
  - exists w. apply bool_decide_eq_true in Hd. auto.
  - eexists. split; [reflexivity|]. simpl. split; [set_solver | auto].
Qed.

Section WorkflowMore.
Context `{Externals} {callback : Type}.

(** X20. When the output directory is not there, the call creates it and
    goes on as the rest of the run, with or without the force flag. *)
Theorem fresh_output_directory (output_dir : string)
    (otu_table_fps : list string)
    (rep_set_fp gg_fp nt_fp mapping_fp mapping_category : string) (top_n : Z)
    (min_abundance max_abundance min_categories num_categories_to_plot : Z)
    (max_gg_similarity max_nt_similarity e_value : Q) (word_size : Z)
    (merged_otu_table_fp : option string) (suppress_taxonomic_output : bool)
    (jobs_to_start : Z)
    (command_handler : list (list command) -> callback -> string -> M unit)
    (status_update_callback : callback) (force : bool) (w : world) :
  output_dir ∉ dirs w ->
  generate_most_wanted_list output_dir otu_table_fps rep_set_fp gg_fp nt_fp
    mapping_fp mapping_category top_n min_abundance max_abundance
    min_categories num_categories_to_plot max_gg_similarity max_nt_similarity
    e_value word_size merged_otu_table_fp suppress_taxonomic_output
    jobs_to_start command_handler status_update_callback force w
  = most_wanted_run output_dir otu_table_fps rep_set_fp gg_fp nt_fp mapping_fp
      mapping_category top_n min_abundance max_abundance min_categories
      num_categories_to_plot max_gg_similarity max_nt_similarity e_value
      word_size merged_otu_table_fp suppress_taxonomic_output jobs_to_start
      command_handler status_update_callback
      {| iters := iters w; dirs := {[output_dir]} ∪ dirs w; files := files w;
         trace := trace w |}.
Proof.
  intros Hnew. unfold generate_most_wanted_list. unfold_bind.
  erewrite bind_Ok; [reflexivity|].
  unfold try_except_OSError, makedirs.
  now rewrite bool_decide_eq_false_2.
Qed.


(** X22. When the call returns, the three reports are written, the image
    directory is there, and the last effect is the closing of the log. *)
Theorem completed_run_leaves_reports (output_dir : string)
    (otu_table_fps : list string)
    (rep_set_fp gg_fp nt_fp mapping_fp mapping_category : string) (top_n : Z)
    (min_abundance max_abundance min_categories num_categories_to_plot : Z)
    (max_gg_similarity max_nt_similarity e_value : Q) (word_size : Z)
    (merged_otu_table_fp : option string) (suppress_taxonomic_output : bool)
    (jobs_to_start : Z)
    (command_handler : list (list command) -> callback -> string -> M unit)
    (status_update_callback : callback) (force : bool) (w w' : world) :
  generate_most_wanted_list output_dir otu_table_fps rep_set_fp gg_fp nt_fp
    mapping_fp mapping_category top_n min_abundance max_abundance
    min_categories num_categories_to_plot max_gg_similarity max_nt_similarity
    e_value word_size merged_otu_table_fp suppress_taxonomic_output
    jobs_to_start command_handler status_update_callback force w
  = (Ok tt, w') ->
  is_Some (files w' !! path_join output_dir "most_wanted_otus.txt")
  /\ is_Some (files w' !! path_join output_dir "most_wanted_otus.fasta")
  /\ is_Some (files w' !! path_join output_dir "most_wanted_otus.html")
  /\ path_join output_dir "img" ∈ dirs w'
  /\ last (trace w') = Some (LogClose (generate_log_fp output_dir)).
Proof.
  unfold generate_most_wanted_list, most_wanted_run. unfold_bind. intros Hrun.
  apply bind_Ok_inv in Hrun as (_ & w0 & _ & Hrun).
  apply bind_Ok_inv in Hrun as (_ & w1 & _ & Hrun).
  destruct (_get_most_wanted_filtering_commands output_dir otu_table_fps
              rep_set_fp gg_fp nt_fp mapping_fp mapping_category min_abundance
              max_abundance min_categories max_gg_similarity e_value word_size
              merged_otu_table_fp jobs_to_start)
    as [[[commands blast_results_fp] rep_set_cands_failures_fp]
          master_otu_table_ms_fp].
  apply bind_Ok_inv in Hrun as (_ & w2 & _ & Hrun).
  apply bind_Ok_inv in Hrun as (_ & w3 & _ & Hrun).
  apply bind_Ok_inv in Hrun as (blast_results_f & w4 & _ & Hrun).
  apply bind_Ok_inv in Hrun as (top_n_mw & w5 & _ & Hrun).
  apply bind_Ok_inv in Hrun as (_ & w6 & _ & Hrun).
  apply bind_Ok_inv in Hrun as (rep_set_f & w7 & _ & Hrun).
  apply bind_Ok_inv in Hrun as (mw_seqs & w8 & _ & Hrun).
  apply bind_Ok_inv in Hrun as (table_f & w9 & _ & Hrun).
  apply bind_Ok_inv in Hrun as (master_otu_table_ms & w10 & _ & Hrun).
  apply bind_Ok_inv in Hrun as (_ & w11 & _ & Hrun).
  apply bind_Ok_inv in Hrun as ([] & w12 & Hmk & Hrun).
  destruct (makedirs_or_pass (path_join output_dir "img") w11)
    as (w12' & Hmk' & Himg & _).
  rewrite Hmk in Hmk'. injection Hmk' as Hsame. subst w12'.
  apply bind_Ok_inv in Hrun
    as ([[[[tsv_lines html_table_lines] mw_fasta_lines] plot_fps]
          plot_data_fps] & w13 & Hfmt & Hrun).
  pose proof (report_assembler_only_adds_effects top_n_mw mw_seqs
                master_otu_table_ms (path_join output_dir "img")
                mapping_category suppress_taxonomic_output
                num_categories_to_plot w12) as Hext.
  rewrite Hfmt in Hext. destruct Hext as (Hdirs & _). cbn [snd] in Hdirs.
  unfold bind, write_file, emit in Hrun. cbn in Hrun. injection Hrun as <-.
  cbn [files dirs trace]. rewrite Hdirs.
  repeat split; try assumption.
  - rewrite !lookup_insert_is_Some'. auto.
  - rewrite !lookup_insert_is_Some'. auto.
  - rewrite !lookup_insert_is_Some'. auto.
  - apply last_snoc.
Qed.

End WorkflowMore.

(** ** A hit without a sequence *)

Lemma fold_M_app {A S} (body : S -> A -> M S) (l1 l2 : list A) (st : S)
    (w : world) :
  fold_M body (l1 ++ l2) st w = bind (fold_M body l1 st) (fold_M body l2) w.
Proof.
  revert st w. induction l1 as [|x l1 IH]; intros st w; [reflexivity|].
  cbn [fold_M app]. unfold bind in *.
  destruct (body st x w) as [[st1|e] w1]; [|reflexivity].
  apply IH.
Qed.

Lemma enumerate_from_app {A} (i : Z) (l1 l2 : list A) :
  enumerate_from i (l1 ++ l2)
  = enumerate_from i l1 ++ enumerate_from (i + Z.of_nat (length l1)) l2.
Proof.
  revert i. induction l1 as [|x l1 IH]; intros i.
  - cbn. now rewrite Z.add_0_r.
  - cbn [app enumerate_from length]. rewrite IH. do 3 f_equal. lia.
Qed.

Section ReportFailure.
Context `{Externals}.

(** X23. A ranked hit whose OTU has no sequence in the lookup stops the
    assembler with a [KeyError] for that OTU, when the hits before it went
    through; the charts of these earlier hits have been written by then,
    since the world is the one they left. *)
Theorem missing_sequence_is_key_error (before after : list hit) (h : hit)
    (mw_seqs : gmap string string) (master_otu_table_ms : biom_table)
    (output_img_dir mapping_category : string)
    (suppress_taxonomic_output : bool) (num_categories_to_plot : Z)
    (w w1 : world) (r : report) :
  _format_top_n_results_table before mw_seqs master_otu_table_ms
    output_img_dir mapping_category suppress_taxonomic_output
    num_categories_to_plot w
  = (Ok r, w1) ->
  mw_seqs !! hit_otu h = None ->
  _format_top_n_results_table (before ++ h :: after) mw_seqs
    master_otu_table_ms output_img_dir mapping_category
    suppress_taxonomic_output num_categories_to_plot w
  = (Raise (KeyError (hit_otu h)), w1).
Proof.
  unfold _format_top_n_results_table. unfold_bind. intros Hrun Hnone.
  apply bind_Ok_inv in Hrun as (st & w0 & Hloop & Hend).
  destruct st as [[[[tsv html] fasta] fps] dfps].
  unfold ret in Hend. injection Hend as _ <-.
  apply bind_Raise. unfold enumerate. rewrite enumerate_from_app, fold_M_app.
  erewrite bind_Ok by exact Hloop.
  cbn [enumerate_from fold_M]. apply bind_Raise.
  destruct h as [[otu_id subject_id] percent_identity].
  unfold hit_otu in *. cbn [fst] in *.
  unfold report_step. unfold_bind. apply bind_Raise.
  unfold lift, lookup_seq. now rewrite Hnone.
Qed.

End ReportFailure.

(* ================================================================== *)
(** ** The further properties on the sample inputs *)

(** One result asked for: the hit left out is not below the one returned. *)
Lemma top_n_are_the_lowest_witness :
  (hit_pi ("OTU2", "gi|2", 2.0%Q) <= hit_pi ("OTU1", "gi|1", 5.0%Q))%Q.
Proof.
  apply (@top_n_are_the_lowest Sample.externals Sample.blast_output 1 0.1
           [("OTU1", "gi|1", 5.0%Q); ("OTU2", "gi|2", 2.0%Q);
            ("OTU1", "gi|3", 1.0%Q)]
           [("OTU2", "gi|2", 2.0%Q)]).
  - vm_compute. reflexivity.
  - vm_compute. reflexivity.
  - vm_compute. reflexivity.
  - intros [E|[]]. discriminate E.
  - left. reflexivity.
Defined.

(** Two hits at 2.0: returned in the order of the lines. *)
Lemma top_n_ties_in_input_order_witness :
  List.filter (fun h => Qeq_bool (hit_pi h) 2.0)
    [("OTU1", "gi|1", 2.0%Q); ("OTU2", "gi|2", 2.0%Q)]
  `sublist_of` [("OTU1", "gi|1", 2.0%Q); ("OTU2", "gi|2", 2.0%Q)].
Proof.
  apply (@top_n_ties_in_input_order Sample.externals Sample.blast_output_tie
           2 0.1).
  - vm_compute. reflexivity.
  - vm_compute. reflexivity.
Defined.

Lemma no_hits_no_results_witness :
  @_get_top_n_blast_results Sample.externals Sample.blast_output_blank 2 0.1
  = Ok [].
Proof.
  apply (@no_hits_no_results Sample.externals Sample.blast_output_blank 2 0.1).
  repeat constructor.
Defined.

(** A fourth field on the first hit changes nothing. *)
Lemma fields_after_third_ignored_witness :
  @_get_top_n_blast_results Sample.externals
    (("OTU1" +:+ TAB +:+ "gi|1" +:+ TAB +:+ "5.0" +:+ TAB +:+ "1e-30" +:+ NL)
       :: tl (tl Sample.blast_output)) 2 0.1
  = @_get_top_n_blast_results Sample.externals
      (Sample.blast_line "OTU1" "gi|1" "5.0" :: tl (tl Sample.blast_output))
      2 0.1.
Proof.
  apply (@fields_after_third_ignored Sample.externals []
           (tl (tl Sample.blast_output))
           ("OTU1" +:+ TAB +:+ "gi|1" +:+ TAB +:+ "5.0" +:+ TAB +:+ "1e-30"
              +:+ NL)
           (Sample.blast_line "OTU1" "gi|1" "5.0")
           "OTU1" "gi|1" "5.0" ["1e-30"] [] 2 0.1).
  - vm_compute. reflexivity.
  - vm_compute. reflexivity.
Defined.

Lemma pie_chart_sequences_aligned_witness :
  length (snd (fst Sample.abc_plot)) = length (fst (fst Sample.abc_plot))
  /\ length (snd Sample.abc_plot) = length (fst (fst Sample.abc_plot))
  /\ length (fst (fst Sample.abc_plot)) <= length [10; 30; 5]%Q.
Proof.
  apply (@pie_chart_sequences_aligned Sample.externals ["A"; "B"; "C"]
           [10; 30; 5]%Q 2 Sample.empty_world).
  vm_compute. reflexivity.
Defined.


Lemma pie_chart_colors_distinct_witness :
  List.NoDup (snd Sample.abc_plot).
Proof.
  apply (@pie_chart_colors_distinct Sample.externals ["A"; "B"; "C"]
           [10; 30; 5]%Q 2 Sample.empty_world (fst (fst Sample.abc_plot))
           (snd (fst Sample.abc_plot)) (snd Sample.abc_plot)).
  - apply NoDup_ListNoDup. apply (bool_decide_unpack _). vm_compute. exact I.
  - vm_compute. lia.
  - vm_compute. reflexivity.
Defined.

(** Two groups on a palette of three colors: the iterator is left at the
    third color. *)
Lemma pie_chart_draws_one_color_per_group_witness :
  iters (snd (@_format_pie_chart_data Sample.externals ["A"; "B"] [1; 3]%Q 1
                Sample.empty_world))
  = [{| cyc_items := Sample.three_colors; cyc_pos := 2 |}].
Proof.
  apply (@pie_chart_draws_one_color_per_group Sample.externals ["A"; "B"]
           [1; 3]%Q 1 Sample.empty_world).
  - vm_compute. discriminate.
  - reflexivity.
Defined.

Lemma pie_chart_ties_in_input_order_witness :
  snd Sample.abc_plot
  = map (fun i => nth (i mod length Sample.three_colors) Sample.three_colors
                    "")
        (kept_positions [10; 30; 5]%Q 2).
Proof.
  destruct (@pie_chart_ties_in_input_order Sample.externals ["A"; "B"; "C"]
              [10; 30; 5]%Q 2 Sample.empty_world (fst (fst Sample.abc_plot))
              (snd (fst Sample.abc_plot)) (snd Sample.abc_plot))
    as (_ & _ & Hcolors & _).
  - vm_compute. reflexivity.
  - exact Hcolors.
Defined.

Lemma chunks_partition_witness :
  concat_str (chunks 4 "ACGTACGTAC") = "ACGTACGTAC"
  /\ Forall (fun piece => 1 <= String.length piece <= 4)
       (chunks 4 "ACGTACGTAC").
Proof. apply (chunks_partition 4 "ACGTACGTAC"). lia. Defined.

(** Two records of OTU1: the sequence of the second is kept. *)
Lemma rep_set_last_record_wins_witness :
  Sample.twice_lookup !! "OTU1" = Some "GGCC".
Proof.
  apply (@rep_set_last_record_wins Sample.externals Sample.fasta_twice
           [("OTU1 sample1_1", "ACGT"); ("OTU1 sample2_5", "GGCC")]
           Sample.twice_lookup "OTU1").
  - vm_compute. reflexivity.
  - vm_compute. reflexivity.
Defined.


Lemma rep_set_keys_are_words_witness :
  nonempty "OTU1" = true /\ has_space "OTU1" = false.
Proof.
  apply (@rep_set_keys_are_words Sample.externals Sample.fasta_twice
           Sample.twice_lookup "OTU1" "GGCC").
  - vm_compute. reflexivity.
  - vm_compute. reflexivity.
Defined.

Lemma report_charts_follow_ranks_witness :
  snd (fst Sample.ranked_report)
  = map (@chart_fp Sample.externals "out/img" "ENV" ".png") Sample.ranked
  /\ snd Sample.ranked_report
     = map (@chart_fp Sample.externals "out/img" "ENV" ".p") Sample.ranked.
Proof.
  destruct (@report_charts_follow_ranks Sample.externals Sample.seqs
              Sample.table "out/img" "ENV" false 2 Sample.ranked
              Sample.empty_world
              (snd (@_format_top_n_results_table Sample.externals
                      Sample.ranked Sample.seqs Sample.table "out/img" "ENV"
                      false 2 Sample.empty_world))
              (fst (fst (fst (fst Sample.ranked_report))))
              (snd (fst (fst (fst Sample.ranked_report))))
              (snd (fst (fst Sample.ranked_report)))
              (snd (fst Sample.ranked_report))
              (snd Sample.ranked_report))
    as (Hpng & Hp & _).
  - vm_compute. reflexivity.
  - split; assumption.
Defined.

(** A first run: the output directory is made, then the run goes on. *)
Lemma fresh_output_directory_witness :
  Sample.run_result
  = @most_wanted_run Sample.externals unit "out" ["otus.biom"] "rep_set.fna"
      "gg.fna" "nt.fna" "map.txt" "ENV" 2 10 100 2 2 0.97 0.1 0.001 30 None
      false 4 Sample.tools tt
      {| iters := []; dirs := {["out"]} ∪ ∅; files := ∅; trace := [] |}.
Proof.
  apply (@fresh_output_directory Sample.externals unit "out" ["otus.biom"]
           "rep_set.fna" "gg.fna" "nt.fna" "map.txt" "ENV" 2 10 100 2 2 0.97
           0.1 0.001 30 None false 4 Sample.tools tt false
           Sample.empty_world).
  vm_compute. set_solver.
Defined.


Lemma completed_run_leaves_reports_witness :
  is_Some (files (snd Sample.run_result) !! "out/most_wanted_otus.txt")
  /\ is_Some (files (snd Sample.run_result) !! "out/most_wanted_otus.fasta")
  /\ is_Some (files (snd Sample.run_result) !! "out/most_wanted_otus.html")
  /\ "out/img" ∈ dirs (snd Sample.run_result)
  /\ last (trace (snd Sample.run_result)) = Some (LogClose "out/log.txt").
Proof.
  apply (@completed_run_leaves_reports Sample.externals unit "out"
           ["otus.biom"] "rep_set.fna" "gg.fna" "nt.fna" "map.txt" "ENV" 2 10
           100 2 2 0.97 0.1 0.001 30 None false 4 Sample.tools tt false
           Sample.empty_world (snd Sample.run_result)).
  vm_compute. reflexivity.
Defined.

(** A third ranked hit whose OTU has no sequence, after one that has. *)
Lemma missing_sequence_is_key_error_witness :
  @_format_top_n_results_table Sample.externals
    (firstn 1 Sample.ranked ++ [("OTU9", "gi|9|gb|AB000009.1|", 1.0%Q)])
    Sample.seqs Sample.table "out/img" "ENV" false 2 Sample.empty_world
  = (Raise (KeyError "OTU9"), snd Sample.first_report).
Proof.
  apply (@missing_sequence_is_key_error Sample.externals
           (firstn 1 Sample.ranked) []
           ("OTU9", "gi|9|gb|AB000009.1|", 1.0%Q) Sample.seqs Sample.table
           "out/img" "ENV" false 2 Sample.empty_world
           (snd Sample.first_report)
           (match fst Sample.first_report with
            | Ok r => r
            | Raise _ => ("", "", "", [], [])
            end)).
  - vm_compute. reflexivity.
  - vm_compute. reflexivity.
Defined.
